(** * AI Concierge: the Agent Studio admin console and its training data

    A shallow embedding of [src/agent-studio.jsx] (the React console that
    edits the four training lists of an agent) together with the parts of
    the backend that the deployment guide documents.

    JavaScript values are modelled the way the console uses them: strings
    are sequences of UTF-16 code units, records are objects (finite maps
    from property names to values), arrays are lists, React state cells are
    fields of a state record and event handlers are state transformers that
    also return the effects they request from the environment. *)

From Stdlib Require Import NArith ZArith Ascii String List Lia.
From stdpp Require Import base option list strings gmap.

Open Scope string_scope.
Open Scope list_scope.
Open Scope N_scope.
Open Scope nat_scope.

(** ** JavaScript strings *)

Module JS.

(** A string is a sequence of UTF-16 code units. *)
Definition jsstring := list N.

(** *** Source literals

    The source file is UTF-8 text; a literal in it denotes the UTF-16
    string of the code points it spells.  [lit] turns the bytes of a Rocq
    string literal into that JavaScript string. *)

Definition bytes_of (s : string) : list N :=
  map (fun b => Z.to_N (Z.of_nat (Byte.to_nat b))) (list_byte_of_string s).

Definition cont (b : N) : N := N.land b 0x3F.

Fixpoint utf8_decode (bs : list N) : list N :=
  match bs with
  | [] => []
  | b0 :: r0 =>
    if (b0 <? 0x80)%N then b0 :: utf8_decode r0
    else match r0 with
    | [] => [0xFFFD%N]
    | b1 :: r1 =>
      if (b0 <? 0xE0)%N
      then (N.land b0 0x1F * 64 + cont b1)%N :: utf8_decode r1
      else match r1 with
      | [] => [0xFFFD%N]
      | b2 :: r2 =>
        if (b0 <? 0xF0)%N
        then (N.land b0 0x0F * 4096 + cont b1 * 64 + cont b2)%N :: utf8_decode r2
        else match r2 with
        | [] => [0xFFFD%N]
        | b3 :: r3 =>
          (N.land b0 0x07 * 262144 + cont b1 * 4096 + cont b2 * 64 + cont b3)%N
            :: utf8_decode r3
        end
      end
    end
  end.

Definition utf16_encode_point (cp : N) : list N :=
  if (cp <? 0x10000)%N then [cp]
  else let v := (cp - 0x10000)%N in
       [(0xD800 + v / 1024)%N; (0xDC00 + v mod 1024)%N].

Definition lit (s : string) : jsstring :=
  concat (map utf16_encode_point (utf8_decode (bytes_of s))).

(** *** White space

    [String.prototype.trim] removes the code points of the ECMAScript
    productions WhiteSpace and LineTerminator from both ends. *)

Definition is_white_space (c : N) : bool :=
  ((c =? 0x0009) || (c =? 0x000B) || (c =? 0x000C) || (c =? 0x0020)
   || (c =? 0x00A0) || (c =? 0xFEFF)
   (* Unicode category Zs beyond U+0020 and U+00A0 *)
   || (c =? 0x1680) || ((0x2000 <=? c) && (c <=? 0x200A))
   || (c =? 0x202F) || (c =? 0x205F) || (c =? 0x3000))%N.

Definition is_line_terminator (c : N) : bool :=
  ((c =? 0x000A) || (c =? 0x000D) || (c =? 0x2028) || (c =? 0x2029))%N.

Definition strippable (c : N) : bool :=
  is_white_space c || is_line_terminator c.

Fixpoint drop_while {A} (p : A -> bool) (l : list A) : list A :=
  match l with
  | [] => []
  | x :: r => if p x then drop_while p r else l
  end.

Definition trimStart (s : jsstring) : jsstring := drop_while strippable s.
Definition trimEnd (s : jsstring) : jsstring :=
  rev (drop_while strippable (rev s)).

(** [s.trim()] *)
Definition trim (s : jsstring) : jsstring := trimEnd (trimStart s).

(** [s.slice(start, end)] with the standard clamping of both indices. *)
Definition clamp_index (len k : Z) : Z :=
  if (k <? 0)%Z then Z.max (len + k) 0 else Z.min k len.

Definition slice (start stop : Z) (s : jsstring) : jsstring :=
  let len := Z.of_nat (length s) in
  let from := clamp_index len start in
  let to := clamp_index len stop in
  take (Z.to_nat (to - from)) (drop (Z.to_nat from) s).

(** *** Values and objects

    The console only ever stores strings and [null] in its records. *)

Inductive value :=
  | VNull
  | VStr (s : jsstring).

#[global] Instance value_eq_dec : EqDecision value.
Proof. solve_decision. Defined.

(** ToBoolean: [null] and the empty string are falsy. *)
Definition truthy (v : value) : bool :=
  match v with
  | VNull => false
  | VStr [] => false
  | VStr (_ :: _) => true
  end.

(** [a || b] and [a && b] *)
Definition or (a b : value) : value := if truthy a then a else b.
Definition and (a b : value) : value := if truthy a then b else a.

(** An object: its own properties, by name. *)
Abbreviation object := (gmap string value).

(** [arr.filter((x, j) => p(x, j))] *)
Fixpoint filter_from {A} (p : A -> nat -> bool) (j : nat) (l : list A) : list A :=
  match l with
  | [] => []
  | x :: r => if p x j then x :: filter_from p (S j) r else filter_from p (S j) r
  end.

Definition filter_index {A} (p : A -> nat -> bool) (l : list A) : list A :=
  filter_from p 0 l.

(** *** Dates

    [new Date()] reads the clock; a date is given by the UTC calendar
    fields of that instant, each within its calendar range, which is all
    [toISOString] looks at. *)

Record Date := mkDate {
  year : Z;
  month : N;      (* 1..12 *)
  day : N;        (* 1..31 *)
  hours : N;
  minutes : N;
  seconds : N;
  milliseconds : N
}.

Definition digit (d : N) : N := (48 + d)%N.

(** The [w] low decimal digits of [n], most significant first. *)
Fixpoint pad (w : nat) (n : N) : jsstring :=
  match w with
  | O => []
  | S w' => pad w' (n / 10)%N ++ [digit (n mod 10)%N]
  end.

(** Years 0..9999 print with four digits, all others with a sign and six. *)
Definition iso_year (y : Z) : jsstring :=
  if ((0 <=? y) && (y <=? 9999))%Z then pad 4 (Z.to_N y)
  else (if (y <? 0)%Z then lit "-" else lit "+") ++ pad 6 (Z.to_N (Z.abs y)).

(** [d.toISOString()]: YYYY-MM-DDTHH:mm:ss.sssZ *)
Definition toISOString (d : Date) : jsstring :=
  iso_year (year d) ++ lit "-" ++ pad 2 (month d) ++ lit "-" ++ pad 2 (day d)
  ++ lit "T" ++ pad 2 (hours d) ++ lit ":" ++ pad 2 (minutes d)
  ++ lit ":" ++ pad 2 (seconds d) ++ lit "." ++ pad 3 (milliseconds d)
  ++ lit "Z".

End JS.

Import JS.

(** ** The training tabs

    Each tab component owns the text of its input boxes and receives its
    training list and the setter of that list from [AgentStudio].  A
    handler is a function of the clock, the list it was rendered with and
    the local state; it returns the list it leaves in the parent's cell
    and its new local state. *)

Definition today (now : Date) : value :=
  VStr (slice 0 10 (toISOString now)).

Module RulesTab.

Record state := mk { newRule : jsstring }.

Definition init : state := mk [].

Definition add (now : Date) (rules : list object) (st : state)
  : list object * state :=
  if truthy (VStr (trim (newRule st)))
  then (rules ++ [ {[ "rule" := VStr (trim (newRule st));
                      "added_at" := today now ]} ],
        mk [])
  else (rules, st).

Definition remove (i : nat) (rules : list object) : list object :=
  filter_index (fun _ j => negb (Nat.eqb j i)) rules.

End RulesTab.

Module FAQTab.

Record state := mk { q : jsstring; a : jsstring }.

Definition init : state := mk [] [].

Definition add (now : Date) (faq : list object) (st : state)
  : list object * state :=
  if truthy (JS.and (VStr (trim (q st))) (VStr (trim (a st))))
  then (faq ++ [ {[ "question" := VStr (trim (q st));
                    "answer" := VStr (trim (a st));
                    "added_at" := today now ]} ],
        mk [] [])
  else (faq, st).

Definition remove (i : nat) (faq : list object) : list object :=
  filter_index (fun _ j => negb (Nat.eqb j i)) faq.

End FAQTab.

Module ExamplesTab.

Record state := mk { scenario : jsstring; good : jsstring; bad : jsstring }.

Definition init : state := mk [] [] [].

Definition add (now : Date) (examples : list object) (st : state)
  : list object * state :=
  if truthy (JS.and (VStr (trim (scenario st))) (VStr (trim (good st))))
  then (examples ++ [ {[ "scenario" := VStr (trim (scenario st));
                         "good_response" := VStr (trim (good st));
                         "bad_response" := JS.or (VStr (trim (bad st))) VNull;
                         "added_at" := today now ]} ],
        mk [] [] [])
  else (examples, st).

Definition remove (i : nat) (examples : list object) : list object :=
  filter_index (fun _ j => negb (Nat.eqb j i)) examples.

End ExamplesTab.

Module CorrectionsTab.

Record state := mk { sit : jsstring; wrong : jsstring; fix_ : jsstring }.

Definition init : state := mk [] [] [].

Definition add (now : Date) (corrections : list object) (st : state)
  : list object * state :=
  if truthy (JS.and (VStr (trim (sit st))) (VStr (trim (fix_ st))))
  then (corrections ++ [ {[ "situation" := VStr (trim (sit st));
                            "wrong" := JS.or (VStr (trim (wrong st))) VNull;
                            "correction" := VStr (trim (fix_ st));
                            "added_at" := today now ]} ],
        mk [] [] [])
  else (corrections, st).

Definition remove (i : nat) (corrections : list object) : list object :=
  filter_index (fun _ j => negb (Nat.eqb j i)) corrections.

End CorrectionsTab.

(** ** What the console can ask of its environment *)

Module Http.

(** The documented HTTP surface of the backend that concerns configuration
    and training data.  (The chat and leads endpoints need the hosted
    language model and are outside this development.) *)
Inductive request :=
  | GET_health
  | GET_config (agent : jsstring)
  | GET_prompt_preview (agent : jsstring)
  | GET_training (agent : jsstring)
  | POST_training (agent : jsstring) (type : jsstring) (data : object).

End Http.

(** ** The main component *)

Module AgentStudio.

Definition API : jsstring := lit "http://localhost:8000".
Definition AGENT_ID : jsstring := lit "vamos-events".

(** Seed data for the demo. *)
Module SEED.

Definition rules : list object := [
  {[ "rule" := VStr (lit "Never quote a specific fixed price. Always use ranges and say 'approximate'."); "added_at" := VStr (lit "2026-02-08") ]};
  {[ "rule" := VStr (lit "Do NOT confirm availability for specific dates. Say we'll check during consultation."); "added_at" := VStr (lit "2026-02-08") ]};
  {[ "rule" := VStr (lit "For destination events outside Ontario, mention travel surcharges ($2,000–$5,000)."); "added_at" := VStr (lit "2026-02-08") ]};
  {[ "rule" := VStr (lit "No events with fewer than 30 days notice."); "added_at" := VStr (lit "2026-02-08") ]}
].

Definition faq : list object := [
  {[ "question" := VStr (lit "Do you travel for destination weddings?"); "answer" := VStr (lit "Yes! We've performed across Canada, the US, Mexico, and the Caribbean. Travel surcharges of $2,000–$5,000 apply."); "added_at" := VStr (lit "2026-02-08") ]};
  {[ "question" := VStr (lit "Can we see you perform before booking?"); "answer" := VStr (lit "Absolutely! We can show videos from past events during a consultation, plus highlights at vamosevents.ca/gallery."); "added_at" := VStr (lit "2026-02-08") ]};
  {[ "question" := VStr (lit "What genres do you play?"); "answer" := VStr (lit "Genre-versatile — Top 40, R&B, Hip Hop, Latin, House, Afrobeats, Bollywood, Greek, Arabic, and more. Custom playlists for each event."); "added_at" := VStr (lit "2026-02-08") ]}
].

Definition examples : list object := [
  {[ "scenario" := VStr (lit "Prospect asks about pricing for a small wedding"); "good_response" := VStr (lit "For an intimate wedding, MC/DJ packages start around $5,000. A beautiful package usually comes together in the $5,000–$8,000 range."); "bad_response" := VStr (lit "Our minimum is $5,000. What's your budget?"); "added_at" := VStr (lit "2026-02-08") ]};
  {[ "scenario" := VStr (lit "Prospect is comparing multiple vendors"); "good_response" := VStr (lit "It's smart to explore options! Our focus is on curating every moment as a fully coordinated experience — not just playing music."); "bad_response" := VStr (lit "We're the best in the industry."); "added_at" := VStr (lit "2026-02-08") ]}
].

Definition corrections : list object := [
  {[ "situation" := VStr (lit "When a prospect mentions a venue we've worked at"); "wrong" := VStr (lit "That's a nice venue!"); "correction" := VStr (lit "If we've worked there, mention it and share a detail: 'We've worked at The Arlington Estate several times — the acoustics are wonderful.'"); "added_at" := VStr (lit "2026-02-08") ]}
].

End SEED.

(** The callback handed to [setTimeout] by [save]: [() => setSaved(false)]. *)
Inductive callback := ClearSaved.

(** Requests a handler makes of the browser. *)
Inductive effect :=
  | SetTimeout (cb : callback) (ms : N)
  | Fetch (req : Http.request).

(** The tab component that is mounted, with its local state.  A component
    that is unmounted loses its state and starts from [init] again. *)
Inductive child :=
  | NoChild
  | HowItWorksTab
  | Rules (c : RulesTab.state)
  | FAQ (c : FAQTab.state)
  | Examples (c : ExamplesTab.state)
  | Corrections (c : CorrectionsTab.state).

Record state := mk {
  tab : string;
  rules : list object;
  faq : list object;
  examples : list object;
  corrections : list object;
  saved : bool;
  view : child
}.

Definition mount (id : string) : child :=
  if String.eqb id "how" then HowItWorksTab
  else if String.eqb id "rules" then Rules RulesTab.init
  else if String.eqb id "faq" then FAQ FAQTab.init
  else if String.eqb id "examples" then Examples ExamplesTab.init
  else if String.eqb id "corrections" then Corrections CorrectionsTab.init
  else NoChild.

Definition init : state :=
  mk "how" SEED.rules SEED.faq SEED.examples SEED.corrections false
     (mount "how").

Definition tab_ids : list string :=
  ["how"; "rules"; "faq"; "examples"; "corrections"].

Definition setTab (id : string) (st : state) : state :=
  if String.eqb id (tab st) then st
  else mk id (rules st) (faq st) (examples st) (corrections st) (saved st)
          (mount id).

Definition setRules (l : list object) (st : state) : state :=
  mk (tab st) l (faq st) (examples st) (corrections st) (saved st) (view st).

Definition setFaq (l : list object) (st : state) : state :=
  mk (tab st) (rules st) l (examples st) (corrections st) (saved st) (view st).

Definition setExamples (l : list object) (st : state) : state :=
  mk (tab st) (rules st) (faq st) l (corrections st) (saved st) (view st).

Definition setCorrections (l : list object) (st : state) : state :=
  mk (tab st) (rules st) (faq st) (examples st) l (saved st) (view st).

Definition setSaved (b : bool) (st : state) : state :=
  mk (tab st) (rules st) (faq st) (examples st) (corrections st) b (view st).

Definition setView (c : child) (st : state) : state :=
  mk (tab st) (rules st) (faq st) (examples st) (corrections st) (saved st) c.

(** [save]: raise the "Saved" badge and schedule its removal. *)
Definition save (st : state) : state * list effect :=
  (setSaved true st, [SetTimeout ClearSaved 2000]).

(** What the user, or a timer, can do to the console. *)
Inductive event :=
  | ClickTab (id : string)
  | ClickSave
  | TimerFired (cb : callback)
  | RulesChange (v : jsstring)
  | RulesAdd
  | RulesRemove (i : nat)
  | FAQChangeQ (v : jsstring)
  | FAQChangeA (v : jsstring)
  | FAQAdd
  | FAQRemove (i : nat)
  | ExamplesChangeScenario (v : jsstring)
  | ExamplesChangeGood (v : jsstring)
  | ExamplesChangeBad (v : jsstring)
  | ExamplesAdd
  | ExamplesRemove (i : nat)
  | CorrectionsChangeSit (v : jsstring)
  | CorrectionsChangeWrong (v : jsstring)
  | CorrectionsChangeFix (v : jsstring)
  | CorrectionsAdd
  | CorrectionsRemove (i : nat).

(** One event.  [None]: the control that raises the event is not on the
    page (its tab is not the mounted one, or there is no such tab).  An add
    button is disabled while a required box is blank; the handler has the
    same guard of its own and is run here whatever the button's state. *)
Definition step (now : Date) (ev : event) (st : state)
  : option (state * list effect) :=
  match ev, view st with
  | ClickTab id, _ =>
      if bool_decide (id ∈ tab_ids) then Some (setTab id st, []) else None
  | ClickSave, _ => Some (save st)
  | TimerFired ClearSaved, _ => Some (setSaved false st, [])
  | RulesChange v, Rules _ => Some (setView (Rules (RulesTab.mk v)) st, [])
  | RulesAdd, Rules c =>
      let '(l, c') := RulesTab.add now (rules st) c in
      Some (setView (Rules c') (setRules l st), [])
  | RulesRemove i, Rules _ =>
      Some (setRules (RulesTab.remove i (rules st)) st, [])
  | FAQChangeQ v, FAQ c =>
      Some (setView (FAQ (FAQTab.mk v (FAQTab.a c))) st, [])
  | FAQChangeA v, FAQ c =>
      Some (setView (FAQ (FAQTab.mk (FAQTab.q c) v)) st, [])
  | FAQAdd, FAQ c =>
      let '(l, c') := FAQTab.add now (faq st) c in
      Some (setView (FAQ c') (setFaq l st), [])
  | FAQRemove i, FAQ _ =>
      Some (setFaq (FAQTab.remove i (faq st)) st, [])
  | ExamplesChangeScenario v, Examples c =>
      Some (setView (Examples (ExamplesTab.mk v (ExamplesTab.good c)
                                              (ExamplesTab.bad c))) st, [])
  | ExamplesChangeGood v, Examples c =>
      Some (setView (Examples (ExamplesTab.mk (ExamplesTab.scenario c) v
                                              (ExamplesTab.bad c))) st, [])
  | ExamplesChangeBad v, Examples c =>
      Some (setView (Examples (ExamplesTab.mk (ExamplesTab.scenario c)
                                              (ExamplesTab.good c) v)) st, [])
  | ExamplesAdd, Examples c =>
      let '(l, c') := ExamplesTab.add now (examples st) c in
      Some (setView (Examples c') (setExamples l st), [])
  | ExamplesRemove i, Examples _ =>
      Some (setExamples (ExamplesTab.remove i (examples st)) st, [])
  | CorrectionsChangeSit v, Corrections c =>
      Some (setView (Corrections (CorrectionsTab.mk v (CorrectionsTab.wrong c)
                                                    (CorrectionsTab.fix_ c))) st, [])
  | CorrectionsChangeWrong v, Corrections c =>
      Some (setView (Corrections (CorrectionsTab.mk (CorrectionsTab.sit c) v
                                                    (CorrectionsTab.fix_ c))) st, [])
  | CorrectionsChangeFix v, Corrections c =>
      Some (setView (Corrections (CorrectionsTab.mk (CorrectionsTab.sit c)
                                                    (CorrectionsTab.wrong c) v)) st, [])
  | CorrectionsAdd, Corrections c =>
      let '(l, c') := CorrectionsTab.add now (corrections st) c in
      Some (setView (Corrections c') (setCorrections l st), [])
  | CorrectionsRemove i, Corrections _ =>
      Some (setCorrections (CorrectionsTab.remove i (corrections st)) st, [])
  | _, _ => None
  end.

(** A session: events with the clock reading at each; an event that cannot
    happen on the current page is skipped.  Effects are collected in the
    order requested. *)
Fixpoint run (evs : list (Date * event)) (st : state) : state * list effect :=
  match evs with
  | [] => (st, [])
  | (now, ev) :: r =>
      match step now ev st with
      | Some (st', effs) => let '(st'', effs') := run r st' in (st'', effs ++ effs')
      | None => run r st
      end
  end.

(** The HTTP requests among a list of effects. *)
Fixpoint requests (effs : list effect) : list Http.request :=
  match effs with
  | [] => []
  | Fetch req :: r => req :: requests r
  | SetTimeout _ _ :: r => requests r
  end.

End AgentStudio.

(** ** The backend, as documented

    [app.py] is not among the sources at hand; what follows is written
    from the deployment guide and the specification. *)

Module Backend.

(** Modelled from the spec: the agent configuration ([config.json]); the
    reader of that file is in [app.py].  Identifier, business name,
    tone/style text, pricing-range text and qualification thresholds. *)
Record agent_config := mkConfig {
  identifier : jsstring;
  business_name : jsstring;
  tone : jsstring;
  pricing_range : jsstring;
  thresholds : list Z
}.

(** Modelled from the spec: the contents of [training.json], one list per
    type of training record. *)
Record training := mkTraining {
  t_rules : list object;
  t_faq : list object;
  t_examples : list object;
  t_corrections : list object
}.

(** Modelled from the spec: the persisted layout, a per-agent directory
    with [config.json] and [training.json]. *)
Record agent_files := mkFiles {
  config : agent_config;
  training_file : training
}.

(** Modelled from the spec: the data directory, by agent identifier.  It
    is all the state the server has: there is no cache next to it. *)
Abbreviation store := (gmap jsstring agent_files).

(** Modelled from the spec: the environment variables the server reads. *)
Record environment := mkEnv {
  ANTHROPIC_API_KEY : option jsstring;
  DATA_DIR : jsstring;
  PORT : N
}.

(** Modelled from the spec: the fixed text of the prompt template, which
    lives in [app.py].  Only its position around the owner's text matters
    here, so every label is a parameter. *)
Record template := mkTemplate {
  render_config : agent_config -> jsstring;
  rules_header : jsstring;
  rule_open : jsstring;
  rule_close : jsstring;
  faq_header : jsstring;
  question_label : jsstring;
  answer_label : jsstring;
  faq_close : jsstring;
  examples_header : jsstring;
  scenario_label : jsstring;
  good_label : jsstring;
  bad_label : jsstring;
  example_close : jsstring;
  corrections_header : jsstring;
  situation_label : jsstring;
  wrong_label : jsstring;
  fix_label : jsstring;
  correction_close : jsstring;
  closing_emphasis : jsstring
}.

(** The text of a property, empty when absent or [null]. *)
Definition text (o : object) (k : string) : jsstring :=
  match o !! k with
  | Some (VStr s) => s
  | _ => []
  end.

(** An optional part: label and text when the property has text. *)
Definition optional (label : jsstring) (o : object) (k : string) : jsstring :=
  match text o k with
  | [] => []
  | s => label ++ s
  end.

Section Prompt.

Variable T : template.

(** Modelled from the spec: prompt assembly in [app.py].  Each rule
    verbatim as a directive. *)
Definition render_rule (r : object) : jsstring :=
  rule_open T ++ text r "rule" ++ rule_close T.

(** Modelled from the spec: a FAQ pair, question and answer verbatim. *)
Definition render_faq (f : object) : jsstring :=
  question_label T ++ text f "question"
  ++ answer_label T ++ text f "answer" ++ faq_close T.

(** Modelled from the spec: an example, scenario with the good response
    and the bad one when there is one. *)
Definition render_example (e : object) : jsstring :=
  scenario_label T ++ text e "scenario"
  ++ good_label T ++ text e "good_response"
  ++ optional (bad_label T) e "bad_response" ++ example_close T.

(** Modelled from the spec: a correction, situation, what was wrong when
    given, and the fix. *)
Definition render_correction (c : object) : jsstring :=
  situation_label T ++ text c "situation"
  ++ optional (wrong_label T) c "wrong"
  ++ fix_label T ++ text c "correction" ++ correction_close T.

Definition rules_block (tr : training) : jsstring :=
  rules_header T ++ concat (map render_rule (t_rules tr)).

Definition faq_block (tr : training) : jsstring :=
  faq_header T ++ concat (map render_faq (t_faq tr)).

Definition examples_block (tr : training) : jsstring :=
  examples_header T ++ concat (map render_example (t_examples tr)).

Definition corrections_block (tr : training) : jsstring :=
  corrections_header T ++ concat (map render_correction (t_corrections tr))
  ++ closing_emphasis T.

(** Modelled from the spec: the prompt builder of [app.py]: business
    config, then rules, then FAQ pairs, then examples, then corrections,
    which close the prompt with the strongest emphasis. *)
Definition build_prompt (cfg : agent_config) (tr : training) : jsstring :=
  render_config T cfg ++ rules_block tr ++ faq_block tr
  ++ examples_block tr ++ corrections_block tr.

(** Modelled from the spec: the body of [GET /api/health], after the
    example in the deployment guide. *)
Record health_response := mkHealth {
  status : jsstring;
  api_configured : bool;
  data_dir : jsstring;
  agents : list jsstring
}.

Inductive response :=
  | Health (h : health_response)
  | Config (c : agent_config)
  | Prompt (p : jsstring)
  | Training (t : training)
  | Created
  | AgentNotFound
  | BadRequest.

(** Modelled from the spec: the health handler of [app.py]: the agents
    that have a directory in the data directory, and whether the API key
    is set. *)
Definition health (env : environment) (s : store) : health_response :=
  mkHealth (lit "ok")
           (bool_decide (is_Some (ANTHROPIC_API_KEY env)))
           (DATA_DIR env)
           (map fst (map_to_list s)).

(** Modelled from the spec: [POST /api/agents/{id}/training] in [app.py]:
    the record is stamped and appended to the list of its type. *)
Definition add_training (now : Date) (type : jsstring) (data : object)
    (tr : training) : option training :=
  let r := <["added_at" := today now]> data in
  if bool_decide (type = lit "rule") then
    Some (mkTraining (t_rules tr ++ [r]) (t_faq tr) (t_examples tr) (t_corrections tr))
  else if bool_decide (type = lit "faq") then
    Some (mkTraining (t_rules tr) (t_faq tr ++ [r]) (t_examples tr) (t_corrections tr))
  else if bool_decide (type = lit "example") then
    Some (mkTraining (t_rules tr) (t_faq tr) (t_examples tr ++ [r]) (t_corrections tr))
  else if bool_decide (type = lit "correction") then
    Some (mkTraining (t_rules tr) (t_faq tr) (t_examples tr) (t_corrections tr ++ [r]))
  else None.

(** Modelled from the spec: the request handlers of [app.py].  Every
    handler reads the files as they are when the request arrives. *)
Definition handle (env : environment) (now : Date) (req : Http.request)
    (s : store) : store * response :=
  match req with
  | Http.GET_health => (s, Health (health env s))
  | Http.GET_config id =>
      match s !! id with
      | Some f => (s, Config (config f))
      | None => (s, AgentNotFound)
      end
  | Http.GET_prompt_preview id =>
      match s !! id with
      | Some f => (s, Prompt (build_prompt (config f) (training_file f)))
      | None => (s, AgentNotFound)
      end
  | Http.GET_training id =>
      match s !! id with
      | Some f => (s, Training (training_file f))
      | None => (s, AgentNotFound)
      end
  | Http.POST_training id type data =>
      match s !! id with
      | Some f =>
          match add_training now type data (training_file f) with
          | Some tr => (<[id := mkFiles (config f) tr]> s, Created)
          | None => (s, BadRequest)
          end
      | None => (s, AgentNotFound)
      end
  end.

(** The store after a sequence of requests. *)
Fixpoint serve (env : environment) (reqs : list (Date * Http.request))
    (s : store) : store :=
  match reqs with
  | [] => s
  | (now, req) :: r => serve env r (fst (handle env now req s))
  end.

End Prompt.

End Backend.

(** ** Console and backend together

    The backend learns of the console's lists through the requests the
    console makes, and through nothing else. *)

Module World.

Record world := mk {
  console : AgentStudio.state;
  server : Backend.store
}.

Definition deliver (T : Backend.template) (env : Backend.environment)
    (now : Date) (effs : list AgentStudio.effect) (s : Backend.store)
  : Backend.store :=
  Backend.serve T env (map (fun r => (now, r)) (AgentStudio.requests effs)) s.

Definition step (T : Backend.template) (env : Backend.environment)
    (now : Date) (ev : AgentStudio.event) (w : world) : world :=
  match AgentStudio.step now ev (console w) with
  | Some (st, effs) => mk st (deliver T env now effs (server w))
  | None => w
  end.

Definition run (T : Backend.template) (env : Backend.environment)
    (evs : list (Date * AgentStudio.event)) (w : world) : world :=
  fold_left (fun w e => step T env (fst e) (snd e) w) evs w.

(** [GET /api/agents/{id}/prompt-preview] against the world's server. *)
Definition prompt_preview (T : Backend.template) (env : Backend.environment)
    (now : Date) (id : jsstring) (w : world) : Backend.response :=
  snd (Backend.handle T env now (Http.GET_prompt_preview id) (server w)).

End World.

(** ** Occurrence of a text in another *)

Definition occurs_in (s t : jsstring) : Prop :=
  exists pre post, t = pre ++ s ++ post.

(** [a] occurs in [t], and [b] occurs after it. *)
Definition occurs_before (a b t : jsstring) : Prop :=
  exists pre mid post, t = pre ++ a ++ mid ++ b ++ post.

(** ** The shape of training records *)

Definition has_text (o : object) (k : string) : Prop :=
  exists s, o !! k = Some (VStr s).

Definition has_optional_text (o : object) (k : string) : Prop :=
  o !! k = Some VNull \/ has_text o k.

Definition rule_shape (o : object) : Prop := has_text o "rule".

Definition faq_shape (o : object) : Prop :=
  has_text o "question" /\ has_text o "answer".

Definition example_shape (o : object) : Prop :=
  has_text o "scenario" /\ has_text o "good_response"
  /\ (o !! "bad_response" = None \/ has_optional_text o "bad_response").

Definition correction_shape (o : object) : Prop :=
  has_text o "situation" /\ has_text o "correction"
  /\ (o !! "wrong" = None \/ has_optional_text o "wrong").

Definition well_shaped (st : AgentStudio.state) : Prop :=
  Forall rule_shape (AgentStudio.rules st)
  /\ Forall faq_shape (AgentStudio.faq st)
  /\ Forall example_shape (AgentStudio.examples st)
  /\ Forall correction_shape (AgentStudio.corrections st).

(** ** The four kinds of training record, uniformly *)

Inductive kind := KRule | KFAQ | KExample | KCorrection.

(** The local state of the tab of a kind: the text in its input boxes. *)
Definition inputs (k : kind) : Type :=
  match k with
  | KRule => RulesTab.state
  | KFAQ => FAQTab.state
  | KExample => ExamplesTab.state
  | KCorrection => CorrectionsTab.state
  end.

Definition add_of (k : kind)
  : Date -> list object -> inputs k -> list object * inputs k :=
  match k with
  | KRule => RulesTab.add
  | KFAQ => FAQTab.add
  | KExample => ExamplesTab.add
  | KCorrection => CorrectionsTab.add
  end.

Definition remove_of (k : kind) : nat -> list object -> list object :=
  match k with
  | KRule => RulesTab.remove
  | KFAQ => FAQTab.remove
  | KExample => ExamplesTab.remove
  | KCorrection => CorrectionsTab.remove
  end.

Definition cleared (k : kind) : inputs k :=
  match k with
  | KRule => RulesTab.init
  | KFAQ => FAQTab.init
  | KExample => ExamplesTab.init
  | KCorrection => CorrectionsTab.init
  end.

(** The required inputs of a tab, each with the property it is stored in. *)
Definition required (k : kind) : inputs k -> list (string * jsstring) :=
  match k with
  | KRule => fun st => [("rule", RulesTab.newRule st)]
  | KFAQ => fun st => [("question", FAQTab.q st); ("answer", FAQTab.a st)]
  | KExample => fun st => [("scenario", ExamplesTab.scenario st);
                           ("good_response", ExamplesTab.good st)]
  | KCorrection => fun st => [("situation", CorrectionsTab.sit st);
                              ("correction", CorrectionsTab.fix_ st)]
  end.

(** The optional inputs of a tab, likewise. *)
Definition optionals (k : kind) : inputs k -> list (string * jsstring) :=
  match k with
  | KRule => fun _ => []
  | KFAQ => fun _ => []
  | KExample => fun st => [("bad_response", ExamplesTab.bad st)]
  | KCorrection => fun st => [("wrong", CorrectionsTab.wrong st)]
  end.

(** Blank: empty, or nothing but white space and line terminators. *)
Definition blank (s : jsstring) : bool := forallb strippable s.

Definition filled (fields : list (string * jsstring)) : Prop :=
  Forall (fun f => blank (snd f) = false) fields.

(** No white space at either end. *)
Definition stripped (s : jsstring) : Prop :=
  (forall c, head s = Some c -> strippable c = false)
  /\ (forall c, last s = Some c -> strippable c = false).

(** The calendar date of an instant, as YYYY-MM-DD (UTC). *)
Definition utc_date (d : Date) : jsstring :=
  pad 4 (Z.to_N (year d)) ++ lit "-" ++ pad 2 (month d) ++ lit "-"
  ++ pad 2 (day d).

Definition list_of (k : kind) (st : AgentStudio.state) : list object :=
  match k with
  | KRule => AgentStudio.rules st
  | KFAQ => AgentStudio.faq st
  | KExample => AgentStudio.examples st
  | KCorrection => AgentStudio.corrections st
  end.

Definition add_event (k : kind) : AgentStudio.event :=
  match k with
  | KRule => AgentStudio.RulesAdd
  | KFAQ => AgentStudio.FAQAdd
  | KExample => AgentStudio.ExamplesAdd
  | KCorrection => AgentStudio.CorrectionsAdd
  end.

Definition remove_event (k : kind) (i : nat) : AgentStudio.event :=
  match k with
  | KRule => AgentStudio.RulesRemove i
  | KFAQ => AgentStudio.FAQRemove i
  | KExample => AgentStudio.ExamplesRemove i
  | KCorrection => AgentStudio.CorrectionsRemove i
  end.

Definition shape_of (k : kind) : object -> Prop :=
  match k with
  | KRule => rule_shape
  | KFAQ => faq_shape
  | KExample => example_shape
  | KCorrection => correction_shape
  end.

(** The tab of a kind, mounted with the given local state. *)
Definition mounted (k : kind) : inputs k -> AgentStudio.child :=
  match k with
  | KRule => AgentStudio.Rules
  | KFAQ => AgentStudio.FAQ
  | KExample => AgentStudio.Examples
  | KCorrection => AgentStudio.Corrections
  end.

(** The list an event asks to edit, for the add and remove buttons. *)
Definition edits (ev : AgentStudio.event) : option kind :=
  match ev with
  | AgentStudio.RulesAdd | AgentStudio.RulesRemove _ => Some KRule
  | AgentStudio.FAQAdd | AgentStudio.FAQRemove _ => Some KFAQ
  | AgentStudio.ExamplesAdd | AgentStudio.ExamplesRemove _ => Some KExample
  | AgentStudio.CorrectionsAdd | AgentStudio.CorrectionsRemove _ =>
      Some KCorrection
  | _ => None
  end.

#[global] Instance kind_eq_dec : EqDecision kind.
Proof. solve_decision. Defined.

(** ** A session at the console

    The owner opens the Rules tab, types a rule with some stray spaces
    around it, adds it and presses "Save All Changes". *)

Module Sample.

Definition noon : Date := mkDate 2026 11 2 12 0 0 0.

Definition typed : jsstring :=
  lit "  Always mention our 5-star Google rating  ".

Definition session : list (Date * AgentStudio.event) :=
  [ (noon, AgentStudio.ClickTab "rules");
    (noon, AgentStudio.RulesChange typed);
    (noon, AgentStudio.RulesAdd);
    (noon, AgentStudio.ClickSave) ].

Definition new_rule : object :=
  {[ "rule" := VStr (lit "Always mention our 5-star Google rating");
     "added_at" := VStr (lit "2026-11-02") ]}.

(** The console once the rule is typed in, and once it is added. *)
Definition typed_in : AgentStudio.state :=
  AgentStudio.setView (AgentStudio.Rules (RulesTab.mk typed))
    (AgentStudio.setTab "rules" AgentStudio.init).

Definition added : AgentStudio.state :=
  AgentStudio.setView (AgentStudio.Rules RulesTab.init)
    (AgentStudio.setRules (AgentStudio.SEED.rules ++ [new_rule]) typed_in).

(** Other boxes, filled in or not. *)
Definition faq_boxes : FAQTab.state :=
  FAQTab.mk (lit " Do you offer lighting? ") (lit "Yes, on request.").

Definition example_boxes : ExamplesTab.state :=
  ExamplesTab.mk (lit "Prospect asks for a discount") (lit "   ") (lit "No.").

Definition correction_boxes : CorrectionsTab.state :=
  CorrectionsTab.mk (lit "When asked about parking") (lit "  ")
                    (lit "Say the venue decides. ").

End Sample.

(** ** The deployment of the guide

    The environment and data directory of the deployment guide: the API
    key set, [DATA_DIR=/app/data], [PORT=8000], and the seed agent. *)

Module Deployment.

Definition env : Backend.environment :=
  Backend.mkEnv (Some (lit "sk-ant-example")) (lit "/app/data") 8000.

Definition vamos : Backend.agent_files :=
  Backend.mkFiles
    (Backend.mkConfig AgentStudio.AGENT_ID (lit "Vamos Events") [] [] [])
    (Backend.mkTraining AgentStudio.SEED.rules AgentStudio.SEED.faq
       AgentStudio.SEED.examples AgentStudio.SEED.corrections).

Definition files : Backend.store := {[ AgentStudio.AGENT_ID := vamos ]}.

End Deployment.

(** ** What the tabs put on the page *)

(** [!v] *)
Definition js_not (v : value) : bool := negb (truthy v).

(** The [disabled] attribute of the add button of a tab. *)
Definition disabled (k : kind) : inputs k -> bool :=
  match k with
  | KRule => fun st => js_not (VStr (trim (RulesTab.newRule st)))
  | KFAQ => fun st => js_not (VStr (trim (FAQTab.q st)))
                      || js_not (VStr (trim (FAQTab.a st)))
  | KExample => fun st => js_not (VStr (trim (ExamplesTab.scenario st)))
                          || js_not (VStr (trim (ExamplesTab.good st)))
  | KCorrection => fun st => js_not (VStr (trim (CorrectionsTab.sit st)))
                             || js_not (VStr (trim (CorrectionsTab.fix_ st)))
  end.

(** The boxes of a tab with every text trimmed by hand beforehand. *)
Definition trimmed (k : kind) : inputs k -> inputs k :=
  match k with
  | KRule => fun st => RulesTab.mk (trim (RulesTab.newRule st))
  | KFAQ => fun st => FAQTab.mk (trim (FAQTab.q st)) (trim (FAQTab.a st))
  | KExample => fun st =>
      ExamplesTab.mk (trim (ExamplesTab.scenario st))
                     (trim (ExamplesTab.good st)) (trim (ExamplesTab.bad st))
  | KCorrection => fun st =>
      CorrectionsTab.mk (trim (CorrectionsTab.sit st))
                        (trim (CorrectionsTab.wrong st))
                        (trim (CorrectionsTab.fix_ st))
  end.

(** A property read [o.k] used as a condition: [undefined], [null] and the
    empty string are falsy. *)
Definition shown (v : option value) : bool :=
  match v with
  | Some x => truthy x
  | None => false
  end.

(** The blocks of the card of an example, heading and content: the
    scenario, the good response, and the response to avoid when
    [ex.bad_response] is truthy. *)
Definition example_card (ex : object) : list (jsstring * option value) :=
  [ (lit "SCENARIO", ex !! "scenario");
    (lit "✓ GOOD RESPONSE", ex !! "good_response") ]
  ++ (if shown (ex !! "bad_response")
      then [ (lit "✗ AVOID", ex !! "bad_response") ] else []).

(** The lines of the card of a correction, with the "Instead of" line when
    [c.wrong] is truthy. *)
Definition correction_card (c : object) : list (jsstring * option value) :=
  [ (lit "WHEN: ", c !! "situation") ]
  ++ (if shown (c !! "wrong")
      then [ (lit "Instead of: ", c !! "wrong") ] else [])
  ++ [ (lit "Do this: ", c !! "correction") ].

(** The tab buttons: for each tab of [tabs], whether [S.tab] is called
    with [true], that is whether [tab === t.id]. *)
Definition highlighted (st : AgentStudio.state) : list bool :=
  map (fun id => String.eqb (AgentStudio.tab st) id) AgentStudio.tab_ids.

(** The tab a mounted component belongs to. *)
Definition tab_of_view (c : AgentStudio.child) : option string :=
  match c with
  | AgentStudio.NoChild => None
  | AgentStudio.HowItWorksTab => Some "how"
  | AgentStudio.Rules _ => Some "rules"
  | AgentStudio.FAQ _ => Some "faq"
  | AgentStudio.Examples _ => Some "examples"
  | AgentStudio.Corrections _ => Some "corrections"
  end.

(** The page shows the component of the current tab. *)
Definition consistent (st : AgentStudio.state) : Prop :=
  tab_of_view (AgentStudio.view st) = Some (AgentStudio.tab st).

Definition is_remove (ev : AgentStudio.event) : bool :=
  match ev with
  | AgentStudio.RulesRemove _ | AgentStudio.FAQRemove _
  | AgentStudio.ExamplesRemove _ | AgentStudio.CorrectionsRemove _ => true
  | _ => false
  end.

Definition is_save (ev : AgentStudio.event) : bool :=
  match ev with
  | AgentStudio.ClickSave => true
  | _ => false
  end.

(** The presses of "Save All Changes" in a session. *)
Definition count_saves (evs : list (Date * AgentStudio.event)) : nat :=
  length (filter (fun e => is_save (snd e) = true) evs).

(** Ten characters of the form DDDD-DD-DD. *)
Definition is_digit (c : N) : bool := ((48 <=? c) && (c <=? 57))%N.

Definition date_shaped (s : jsstring) : bool :=
  match s with
  | [y1; y2; y3; y4; h1; m1; m2; h2; d1; d2] =>
      forallb is_digit [y1; y2; y3; y4; m1; m2; d1; d2]
      && (h1 =? 45)%N && (h2 =? 45)%N
  | _ => false
  end.

(** ** Further sample data *)

Module Cases.

(** An instant in the year 12026. *)
Definition far : Date := mkDate 12026 11 2 12 0 0 0.

(** An example with nothing to avoid. *)
Definition example_boxes : ExamplesTab.state :=
  ExamplesTab.mk (lit "Prospect asks for a discount")
                 (lit " We price by package.") (lit "  ").

End Cases.

(** * Properties *)

(** ** Strings *)

Section DropWhile.

Context {A : Type} (p : A -> bool).

Lemma drop_while_head (l : list A) (x : A) (r : list A) :
  drop_while p l = x :: r -> p x = false.
Proof.
  induction l as [|y l IH]; simpl; [discriminate|].
  destruct (p y) eqn:Hy; [exact IH|].
  intros [= -> _]. exact Hy.
Qed.

Lemma drop_while_nil (l : list A) :
  drop_while p l = [] <-> forallb p l = true.
Proof.
  induction l as [|y l IH]; simpl; [tauto|].
  destruct (p y); simpl; [exact IH|].
  split; discriminate.
Qed.

Lemma drop_while_app_stop (l : list A) (x : A) (r : list A) :
  p x = false -> drop_while p (l ++ x :: r) = drop_while p l ++ x :: r.
Proof.
  intros Hx. induction l as [|y l IH]; simpl.
  - now rewrite Hx.
  - destruct (p y); [exact IH | reflexivity].
Qed.

Lemma drop_while_fixed (l : list A) (x : A) (r : list A) :
  l = x :: r -> p x = false -> drop_while p l = l.
Proof. intros -> Hx. simpl. now rewrite Hx. Qed.

End DropWhile.

Lemma last_rev {A} (l : list A) : last (rev l) = head l.
Proof. rewrite rev_alt. apply last_reverse. Qed.

Lemma trimEnd_cons (c : N) (s : jsstring) :
  strippable c = false -> trimEnd (c :: s) = c :: trimEnd s.
Proof.
  intros Hc. unfold trimEnd. simpl rev.
  rewrite (drop_while_app_stop strippable (rev s) c [] Hc).
  rewrite rev_app_distr. reflexivity.
Qed.

Lemma trim_cases (s : jsstring) :
  (trimStart s = [] /\ trim s = [])
  \/ (exists c r, trimStart s = c :: r /\ strippable c = false
                  /\ trim s = c :: trimEnd r).
Proof.
  unfold trim. destruct (trimStart s) as [|c r] eqn:E.
  - left. split; reflexivity.
  - right. exists c, r. assert (Hc : strippable c = false).
    { unfold trimStart in E. exact (drop_while_head _ _ _ _ E). }
    repeat split; [exact Hc|]. apply trimEnd_cons, Hc.
Qed.

Lemma trim_nil_iff (s : jsstring) : trim s = [] <-> blank s = true.
Proof.
  unfold blank. rewrite <- drop_while_nil. fold (trimStart s).
  destruct (trim_cases s) as [[H1 H2]|(c & r & H1 & _ & H2)];
    rewrite H1, H2; split; congruence.
Qed.

Lemma trim_stripped (s : jsstring) : stripped (trim s).
Proof.
  split; intros c Hc.
  - destruct (trim_cases s) as [[_ H]|(c' & r & _ & Hs & H)];
      rewrite H in Hc; simpl in Hc; [discriminate|].
    now injection Hc as <-.
  - unfold trim, trimEnd in Hc. rewrite last_rev in Hc.
    destruct (drop_while strippable (rev (trimStart s))) as [|x r] eqn:E;
      simpl in Hc; [discriminate|].
    injection Hc as <-. exact (drop_while_head _ _ _ _ E).
Qed.

Lemma stripped_trim_id (s : jsstring) : stripped s -> trim s = s.
Proof.
  intros [Hh Hl]. unfold trim, trimStart.
  assert (E1 : drop_while strippable s = s).
  { destruct s as [|c r]; [reflexivity|].
    apply (drop_while_fixed _ _ c r eq_refl). apply Hh. reflexivity. }
  rewrite E1. unfold trimEnd.
  assert (E2 : drop_while strippable (rev s) = rev s).
  { destruct (rev s) as [|c r] eqn:E; [reflexivity|].
    apply (drop_while_fixed _ _ c r eq_refl). apply Hl.
    rewrite <- (rev_involutive s), E, last_rev. reflexivity. }
  rewrite E2. apply rev_involutive.
Qed.

(** Trimming twice is trimming once. *)
Lemma trim_idempotent (s : jsstring) : trim (trim s) = trim s.
Proof. apply stripped_trim_id, trim_stripped. Qed.

Lemma truthy_trim (s : jsstring) :
  truthy (VStr (trim s)) = negb (blank s).
Proof.
  destruct (trim s) as [|c r] eqn:E; simpl.
  - apply trim_nil_iff in E. now rewrite E.
  - destruct (blank s) eqn:B; [|reflexivity].
    apply trim_nil_iff in B. congruence.
Qed.

Lemma truthy_and_trim (s t : jsstring) :
  truthy (JS.and (VStr (trim s)) (VStr (trim t)))
  = negb (blank s) && negb (blank t).
Proof.
  unfold JS.and. rewrite <- !truthy_trim.
  destruct (truthy (VStr (trim s))) eqn:E; simpl; [reflexivity | exact E].
Qed.

(** The optional inputs: text when there is some, [null] otherwise. *)
Lemma or_null_trim (s : jsstring) :
  JS.or (VStr (trim s)) VNull
  = if blank s then VNull else VStr (trim s).
Proof. unfold JS.or. rewrite truthy_trim. now destruct (blank s). Qed.

(** ** Dates *)

Lemma pad_length (w : nat) (n : N) : length (pad w n) = w.
Proof.
  revert n. induction w as [|w IH]; intros n; simpl; [reflexivity|].
  rewrite length_app, IH. simpl. lia.
Qed.

Lemma slice_prefix (a b : jsstring) :
  slice 0 (Z.of_nat (length a)) (a ++ b) = a.
Proof.
  unfold slice, clamp_index. rewrite length_app.
  replace (0 <? 0)%Z with false by reflexivity.
  destruct (Z.ltb_spec (Z.of_nat (length a)) 0) as [E|E]; [lia|].
  rewrite Z.min_l by lia. rewrite Z.min_l by lia.
  rewrite Z.sub_0_r, Nat2Z.id. change (Z.to_nat 0) with 0%nat.
  rewrite drop_0. apply take_app_length.
Qed.

Lemma utc_date_length (d : Date) : length (utc_date d) = 10.
Proof.
  unfold utc_date. rewrite !length_app, !pad_length. reflexivity.
Qed.

(** Within years 0 to 9999 the first ten characters of the ISO form are
    the date. *)
Lemma iso_date (d : Date) :
  (0 <= year d <= 9999)%Z -> slice 0 10 (toISOString d) = utc_date d.
Proof.
  intros Hy. unfold toISOString, iso_year.
  assert (E : ((0 <=? year d) && (year d <=? 9999))%Z = true)
    by (apply andb_true_intro; split; apply Z.leb_le; lia).
  rewrite E.
  change 10%Z with (Z.of_nat 10). rewrite <- (utc_date_length d).
  set (rest := lit "T" ++ _).
  replace (pad 4 (Z.to_N (year d)) ++ lit "-" ++ pad 2 (month d) ++ lit "-"
           ++ pad 2 (day d) ++ rest) with (utc_date d ++ rest).
  - apply slice_prefix.
  - unfold utc_date. now rewrite <- !app_assoc.
Qed.

(** ** The add handlers *)

Ltac two_fields H :=
  let H1 := fresh in
  apply Forall_cons in H as [H1 H]; apply Forall_cons in H as [H _];
  simpl in H1, H; rewrite H1, H; simpl.

Ltac pick_field Hin :=
  repeat (apply elem_of_cons in Hin as [Hin|Hin];
          [injection Hin as -> ->; now simplify_map_eq|]);
  now apply elem_of_nil in Hin.

(** With every required box filled in, [add] appends one record, built
    from the trimmed inputs and the date, and clears the boxes. *)
Lemma add_filled (k : kind) (now : Date) (l : list object) (st : inputs k) :
  filled (required k st) ->
  exists r : object,
    add_of k now l st = (l ++ [r], cleared k)
    /\ (forall f v, (f, v) ∈ required k st -> r !! f = Some (VStr (trim v)))
    /\ (forall f v, (f, v) ∈ optionals k st ->
          r !! f = Some (if blank v then VNull else VStr (trim v)))
    /\ r !! "added_at" = Some (today now)
    /\ (forall f, is_Some (r !! f) ->
          f = "added_at" \/ f ∈ map fst (required k st ++ optionals k st)).
Proof.
  intros H. destruct k; simpl in *.
  - apply Forall_cons in H as [H _]. simpl in H.
    unfold RulesTab.add. rewrite truthy_trim, H. simpl.
    eexists. split; [reflexivity|].
    split; [intros f v Hin; pick_field Hin|].
    split; [intros f v Hin; pick_field Hin|].
    split; [now simplify_map_eq|].
    intros f [x Hf]. destruct (decide (f = "rule")) as [->|]; [right; set_solver|].
    destruct (decide (f = "added_at")) as [->|]; [now left|].
    now simplify_map_eq.
  - unfold FAQTab.add. rewrite truthy_and_trim. two_fields H.
    eexists. split; [reflexivity|].
    split; [intros f v Hin; pick_field Hin|].
    split; [intros f v Hin; pick_field Hin|].
    split; [now simplify_map_eq|].
    intros f [x Hf].
    destruct (decide (f = "question")) as [->|]; [right; set_solver|].
    destruct (decide (f = "answer")) as [->|]; [right; set_solver|].
    destruct (decide (f = "added_at")) as [->|]; [now left|].
    now simplify_map_eq.
  - unfold ExamplesTab.add. rewrite truthy_and_trim, or_null_trim. two_fields H.
    eexists. split; [reflexivity|].
    split; [intros f v Hin; pick_field Hin|].
    split; [intros f v Hin; pick_field Hin|].
    split; [now simplify_map_eq|].
    intros f [x Hf].
    destruct (decide (f = "scenario")) as [->|]; [right; set_solver|].
    destruct (decide (f = "good_response")) as [->|]; [right; set_solver|].
    destruct (decide (f = "bad_response")) as [->|]; [right; set_solver|].
    destruct (decide (f = "added_at")) as [->|]; [now left|].
    now simplify_map_eq.
  - unfold CorrectionsTab.add. rewrite truthy_and_trim, or_null_trim.
    two_fields H.
    eexists. split; [reflexivity|].
    split; [intros f v Hin; pick_field Hin|].
    split; [intros f v Hin; pick_field Hin|].
    split; [now simplify_map_eq|].
    intros f [x Hf].
    destruct (decide (f = "situation")) as [->|]; [right; set_solver|].
    destruct (decide (f = "correction")) as [->|]; [right; set_solver|].
    destruct (decide (f = "wrong")) as [->|]; [right; set_solver|].
    destruct (decide (f = "added_at")) as [->|]; [now left|].
    now simplify_map_eq.
Qed.

(** With a required box blank, [add] does nothing. *)
Lemma add_blank (k : kind) (now : Date) (l : list object) (st : inputs k) :
  Exists (fun f => blank (snd f) = true) (required k st) ->
  add_of k now l st = (l, st).
Proof.
  intros H. destruct k; simpl in *.
  - apply Exists_cons in H as [H|H]; [|now apply Exists_nil in H].
    simpl in H. unfold RulesTab.add. now rewrite truthy_trim, H.
  - unfold FAQTab.add. rewrite truthy_and_trim.
    apply Exists_cons in H as [H|H]; simpl in H; [now rewrite H|].
    apply Exists_cons in H as [H|H]; [|now apply Exists_nil in H].
    simpl in H. rewrite H. now rewrite andb_false_r.
  - unfold ExamplesTab.add. rewrite truthy_and_trim.
    apply Exists_cons in H as [H|H]; simpl in H; [now rewrite H|].
    apply Exists_cons in H as [H|H]; [|now apply Exists_nil in H].
    simpl in H. rewrite H. now rewrite andb_false_r.
  - unfold CorrectionsTab.add. rewrite truthy_and_trim.
    apply Exists_cons in H as [H|H]; simpl in H; [now rewrite H|].
    apply Exists_cons in H as [H|H]; [|now apply Exists_nil in H].
    simpl in H. rewrite H. now rewrite andb_false_r.
Qed.

Lemma filled_or_blank (fields : list (string * jsstring)) :
  filled fields \/ Exists (fun f => blank (snd f) = true) fields.
Proof.
  induction fields as [|f r [IH|IH]].
  - left. constructor.
  - destruct (blank (snd f)) eqn:B.
    + right. now constructor.
    + left. now constructor.
  - right. now constructor 2.
Qed.

Lemma slice_nonempty (s : jsstring) : s <> [] -> slice 0 10 s <> [].
Proof.
  destruct s as [|c r]; [congruence|]. intros _.
  unfold slice, clamp_index. replace (0 <? 0)%Z with false by reflexivity.
  replace (10 <? 0)%Z with false by reflexivity.
  rewrite (Z.min_l 0) by lia. change (Z.to_nat 0) with 0%nat.
  rewrite drop_0, Z.sub_0_r.
  destruct (Z.to_nat (Z.min 10 (Z.of_nat (length (c :: r))))) eqn:E;
    [simpl length in E; lia | discriminate].
Qed.

Lemma today_nonempty (now : Date) : today now <> VStr [].
Proof.
  unfold today. intros [= H]. revert H. apply slice_nonempty.
  unfold toISOString. intros H. apply (f_equal (@length N)) in H.
  rewrite !length_app in H. change (length (lit "Z")) with 1 in H.
  simpl length in H. lia.
Qed.

(** C3: with every required box filled in, add returns the old list with
    exactly one record appended at the end; the records that were there
    stay what and where they were.  This holds for each of the four
    training lists. *)
Theorem add_appends_one (k : kind) (now : Date) (l : list object)
    (st : inputs k) :
  filled (required k st) ->
  exists r : object,
    fst (add_of k now l st) = l ++ [r]
    /\ length (fst (add_of k now l st)) = S (length l)
    /\ (forall i x, l !! i = Some x -> fst (add_of k now l st) !! i = Some x)
    /\ fst (add_of k now l st) !! length l = Some r.
Proof.
  intros H. destruct (add_filled k now l st H) as (r & E & _).
  exists r. rewrite E. simpl. repeat split.
  - rewrite length_app. simpl. lia.
  - intros i x Hi. now apply lookup_app_l_Some.
  - now rewrite lookup_app_r, Nat.sub_diag.
Qed.

(** C4: the record that add creates carries, under added_at, the first
    ten characters of the ISO form of the instant of the call, which is
    the calendar date (UTC) of that instant.  This holds for each of the
    four add handlers and every input that passes the guard. *)
Theorem add_stamps_date (k : kind) (now : Date) (l : list object)
    (st : inputs k) :
  filled (required k st) ->
  exists r : object,
    fst (add_of k now l st) = l ++ [r]
    /\ r !! "added_at" = Some (VStr (slice 0 10 (toISOString now)))
    /\ ((0 <= year now <= 9999)%Z ->
        r !! "added_at" = Some (VStr (utc_date now))).
Proof.
  intros H. destruct (add_filled k now l st H) as (r & E & _ & _ & Hd & _).
  exists r. rewrite E. repeat split; [exact Hd|].
  intros Hy. rewrite Hd. unfold today. now rewrite iso_date.
Qed.

(** C8: when a required input is blank (empty or white space only), add
    leaves the list as it is, for each of the four training lists; the
    text in the boxes stays too. *)
Theorem add_blank_is_noop (k : kind) (now : Date) (l : list object)
    (st : inputs k) :
  Exists (fun f => blank (snd f) = true) (required k st) ->
  add_of k now l st = (l, st).
Proof. apply add_blank. Qed.

(** C9: in a record that add creates, every required text is the trimmed
    input, is not empty and has no white space at either end; an optional
    text is [null] when its input is blank and the trimmed, non-empty
    input otherwise; no property of the record is the empty string. *)
Theorem added_record_is_clean (k : kind) (now : Date) (l : list object)
    (st : inputs k) :
  filled (required k st) ->
  exists r : object,
    fst (add_of k now l st) = l ++ [r]
    /\ (forall f v, (f, v) ∈ required k st ->
          r !! f = Some (VStr (trim v)) /\ trim v <> [] /\ stripped (trim v))
    /\ (forall f v, (f, v) ∈ optionals k st ->
          (blank v = true /\ r !! f = Some VNull)
          \/ (blank v = false /\ r !! f = Some (VStr (trim v))
              /\ trim v <> [] /\ stripped (trim v)))
    /\ (forall f, r !! f <> Some (VStr [])).
Proof.
  intros H.
  destruct (add_filled k now l st H) as (r & E & Hreq & Hopt & Hd & Hdom).
  assert (Hne : forall v, blank v = false -> trim v <> []).
  { intros v B T. apply trim_nil_iff in T. congruence. }
  exists r. rewrite E. split; [reflexivity|].
  assert (Hreq' : forall f v, (f, v) ∈ required k st ->
            r !! f = Some (VStr (trim v)) /\ trim v <> [] /\ stripped (trim v)).
  { intros f v Hin. split; [now apply Hreq|]. split; [|apply trim_stripped].
    apply Hne. unfold filled in H. rewrite Forall_forall in H.
    exact (H (f, v) Hin). }
  assert (Hopt' : forall f v, (f, v) ∈ optionals k st ->
            (blank v = true /\ r !! f = Some VNull)
            \/ (blank v = false /\ r !! f = Some (VStr (trim v))
                /\ trim v <> [] /\ stripped (trim v))).
  { intros f v Hin. specialize (Hopt f v Hin).
    destruct (blank v) eqn:B; [left; now split|right].
    repeat split; [exact Hopt | now apply Hne | apply trim_stripped
                  | apply trim_stripped]. }
  split; [exact Hreq'|]. split; [exact Hopt'|].
  intros f Hf.
  destruct (Hdom f) as [->|Hin]; [now rewrite Hf| |].
  - rewrite Hd in Hf. apply (today_nonempty now). congruence.
  - rewrite map_app in Hin. apply elem_of_app in Hin as [Hin|Hin];
      apply list_elem_of_fmap in Hin as ([f' v] & -> & Hin); simpl in Hf.
    + destruct (Hreq' f' v Hin) as (Hr & Hn & _). congruence.
    + destruct (Hopt' f' v Hin) as [[_ Hr]|(_ & Hr & Hn & _)]; congruence.
Qed.

(** ** The remove handlers *)

Lemma filter_from_past {A} (i : nat) (l : list A) (n : nat) :
  i < n -> filter_from (fun _ j => negb (Nat.eqb j i)) n l = l.
Proof.
  revert n. induction l as [|x l IH]; intros n Hn; simpl; [reflexivity|].
  destruct (Nat.eqb_spec n i) as [->|_]; [lia|]. simpl.
  f_equal. apply IH. lia.
Qed.

Lemma filter_from_delete {A} (i : nat) (l : list A) (n : nat) :
  n <= i ->
  filter_from (fun _ j => negb (Nat.eqb j i)) n l
  = take (i - n) l ++ drop (S (i - n)) l.
Proof.
  revert n. induction l as [|x l IH]; intros n Hn; simpl.
  - now rewrite take_nil.
  - destruct (Nat.eqb_spec n i) as [->|Hne]; simpl.
    + rewrite Nat.sub_diag. simpl. rewrite drop_0.
      apply filter_from_past. lia.
    + rewrite (IH (S n)) by lia.
      replace (i - n) with (S (i - S n)) by lia. reflexivity.
Qed.

Lemma remove_of_delete (k : kind) (i : nat) (l : list object) :
  remove_of k i l = take i l ++ drop (S i) l.
Proof.
  destruct k; simpl;
    unfold RulesTab.remove, FAQTab.remove, ExamplesTab.remove,
           CorrectionsTab.remove, filter_index;
    rewrite filter_from_delete by lia; now rewrite Nat.sub_0_r.
Qed.

(** An index past the end removes nothing. *)
Lemma remove_of_past (k : kind) (i : nat) (l : list object) :
  length l <= i -> remove_of k i l = l.
Proof.
  intros H. rewrite remove_of_delete, take_ge, drop_ge by lia.
  apply app_nil_r.
Qed.


(** The rules block of a prompt built after a removal renders the
    records before the position and those after it, and nothing else. *)
Lemma rules_block_after_remove (T : Backend.template) (i : nat)
    (tr : Backend.training) :
  Backend.rules_block T
    (Backend.mkTraining (remove_of KRule i (Backend.t_rules tr))
       (Backend.t_faq tr) (Backend.t_examples tr) (Backend.t_corrections tr))
  = Backend.rules_header T
    ++ concat (map (Backend.render_rule T) (take i (Backend.t_rules tr)))
    ++ concat (map (Backend.render_rule T) (drop (S i) (Backend.t_rules tr))).
Proof.
  unfold Backend.rules_block. cbn [Backend.t_rules].
  now rewrite remove_of_delete, map_app, concat_app.
Qed.

(** ** The console as a whole *)

Lemma edits_inv (ev : AgentStudio.event) (k : kind) :
  edits ev = Some k ->
  ev = add_event k \/ exists i, ev = remove_event k i.
Proof.
  destruct ev; simpl; try discriminate; intros [= <-]; simpl; eauto.
Qed.

Lemma setTab_lists (id : string) (st : AgentStudio.state) (k : kind) :
  list_of k (AgentStudio.setTab id st) = list_of k st.
Proof.
  unfold AgentStudio.setTab. destruct (String.eqb id (AgentStudio.tab st));
    now destruct k.
Qed.

Ltac step_cases H :=
  unfold AgentStudio.step in H;
  repeat match type of H with
  | context [match ?x with _ => _ end] =>
      let E := fresh "E" in destruct x eqn:E; try discriminate H
  end;
  injection H as <- <-.

(** The add button of a tab hands the list of its own kind to the tab's
    handler and stores what comes back in the same cell. *)
Lemma step_add (k : kind) (now : Date) (st st' : AgentStudio.state)
    (effs : list AgentStudio.effect) :
  AgentStudio.step now (add_event k) st = Some (st', effs) ->
  exists c : inputs k,
    AgentStudio.view st = mounted k c
    /\ list_of k st' = fst (add_of k now (list_of k st) c)
    /\ AgentStudio.view st' = mounted k (snd (add_of k now (list_of k st) c)).
Proof.
  intros H. destruct k; simpl in H; step_cases H; simpl;
    match goal with E : _ = (_, _) |- _ => eexists; rewrite E end;
    repeat split.
Qed.

Lemma step_remove (k : kind) (i : nat) (now : Date)
    (st st' : AgentStudio.state) (effs : list AgentStudio.effect) :
  AgentStudio.step now (remove_event k i) st = Some (st', effs) ->
  list_of k st' = remove_of k i (list_of k st).
Proof.
  intros H. destruct k; simpl in H; step_cases H; reflexivity.
Qed.

(** With a required box blank, the add button changes nothing at all. *)
Lemma step_add_blank (k : kind) (now : Date) (st : AgentStudio.state)
    (c : inputs k) :
  AgentStudio.view st = mounted k c ->
  Exists (fun f => blank (snd f) = true) (required k c) ->
  AgentStudio.step now (add_event k) st = Some (st, []).
Proof.
  intros V H. pose proof (add_blank k now (list_of k st) c H) as E.
  destruct st as [t r f e co sv v]. simpl in V. subst v.
  destruct k; simpl in *; unfold AgentStudio.step; simpl; now rewrite E.
Qed.

(** Frame: an event changes no list other than the one it edits. *)
Lemma step_frame (now : Date) (ev : AgentStudio.event)
    (st st' : AgentStudio.state) (effs : list AgentStudio.effect) (k : kind) :
  AgentStudio.step now ev st = Some (st', effs) ->
  edits ev <> Some k ->
  list_of k st' = list_of k st.
Proof.
  intros H Hk. destruct ev; simpl in Hk;
    step_cases H; try apply setTab_lists;
    destruct k; try reflexivity; congruence.
Qed.

(** No handler of the console asks for an HTTP request. *)
Lemma step_requests (now : Date) (ev : AgentStudio.event)
    (st st' : AgentStudio.state) (effs : list AgentStudio.effect) :
  AgentStudio.step now ev st = Some (st', effs) ->
  AgentStudio.requests effs = [].
Proof. intros H. destruct ev; step_cases H; reflexivity. Qed.

Lemma requests_app (e1 e2 : list AgentStudio.effect) :
  AgentStudio.requests (e1 ++ e2)
  = AgentStudio.requests e1 ++ AgentStudio.requests e2.
Proof.
  induction e1 as [|[cb ms|req] e1 IH]; simpl; [reflexivity|exact IH|].
  now rewrite IH.
Qed.

Lemma run_requests (evs : list (Date * AgentStudio.event))
    (st : AgentStudio.state) :
  AgentStudio.requests (snd (AgentStudio.run evs st)) = [].
Proof.
  revert st. induction evs as [|[now ev] evs IH]; intros st; simpl;
    [reflexivity|].
  destruct (AgentStudio.step now ev st) as [[st' effs]|] eqn:E; [|apply IH].
  specialize (IH st'). destruct (AgentStudio.run evs st') as [st'' effs'].
  simpl in *. rewrite requests_app, IH, (step_requests _ _ _ _ _ E).
  reflexivity.
Qed.

(** ** Shapes *)

Lemma well_shaped_kinds (st : AgentStudio.state) :
  well_shaped st <-> forall k, Forall (shape_of k) (list_of k st).
Proof.
  unfold well_shaped. split.
  - intros (H1 & H2 & H3 & H4) k. now destruct k.
  - intros H. exact (conj (H KRule) (conj (H KFAQ)
                       (conj (H KExample) (H KCorrection)))).
Qed.

Lemma added_shape (k : kind) (now : Date) (l : list object) (st : inputs k) :
  filled (required k st) ->
  exists r : object, fst (add_of k now l st) = l ++ [r] /\ shape_of k r.
Proof.
  intros H. destruct (add_filled k now l st H) as (r & E & Hreq & Hopt & _).
  exists r. rewrite E. split; [reflexivity|].
  destruct k; simpl in *; unfold rule_shape, faq_shape, example_shape,
    correction_shape, has_optional_text, has_text.
  - eexists. apply Hreq. repeat constructor.
  - split; eexists; apply Hreq; repeat constructor.
  - split; [|split]; [eexists; apply Hreq; repeat constructor ..|].
    right. rewrite (Hopt "bad_response" (ExamplesTab.bad st))
      by repeat constructor.
    destruct (blank (ExamplesTab.bad st)); eauto.
  - split; [|split]; [eexists; apply Hreq; repeat constructor ..|].
    right. rewrite (Hopt "wrong" (CorrectionsTab.wrong st))
      by repeat constructor.
    destruct (blank (CorrectionsTab.wrong st)); eauto.
Qed.

Lemma add_keeps_shape (k : kind) (now : Date) (l : list object)
    (st : inputs k) :
  Forall (shape_of k) l -> Forall (shape_of k) (fst (add_of k now l st)).
Proof.
  intros Hl. destruct (filled_or_blank (required k st)) as [H|H].
  - destruct (added_shape k now l st H) as (r & -> & Hr).
    apply Forall_app. split; [exact Hl|]. now repeat constructor.
  - now rewrite (add_blank k now l st H).
Qed.

Lemma remove_keeps_shape (k : kind) (i : nat) (l : list object) :
  Forall (shape_of k) l -> Forall (shape_of k) (remove_of k i l).
Proof.
  intros Hl. rewrite remove_of_delete. apply Forall_app.
  split; [now apply Forall_take | now apply Forall_drop].
Qed.

Lemma shape_preserved (now : Date) (ev : AgentStudio.event)
    (st st' : AgentStudio.state) (effs : list AgentStudio.effect) :
  well_shaped st ->
  AgentStudio.step now ev st = Some (st', effs) ->
  well_shaped st'.
Proof.
  rewrite !well_shaped_kinds. intros Hs H k.
  destruct (decide (edits ev = Some k)) as [Hk|Hk].
  - destruct (edits_inv ev k Hk) as [->|[i ->]].
    + destruct (step_add k now st st' effs H) as (c & _ & -> & _).
      apply add_keeps_shape, Hs.
    + rewrite (step_remove k i now st st' effs H).
      apply remove_keeps_shape, Hs.
  - rewrite (step_frame now ev st st' effs k H Hk). apply Hs.
Qed.

(** C6: every event of the console, the add and remove buttons of every
    tab among them, keeps the training lists well shaped: a rule has its
    text, a FAQ its question and answer, an example its scenario and good
    response and at most an optional bad response, a correction its
    situation and fix and at most an optional wrong. *)
Theorem step_keeps_shape (now : Date) (ev : AgentStudio.event)
    (st st' : AgentStudio.state) (effs : list AgentStudio.effect) :
  well_shaped st ->
  AgentStudio.step now ev st = Some (st', effs) ->
  well_shaped st'.
Proof. apply shape_preserved. Qed.

Lemma init_well_shaped : well_shaped AgentStudio.init.
Proof.
  unfold well_shaped, rule_shape, faq_shape, example_shape, correction_shape,
    has_optional_text, has_text. simpl.
  repeat split; repeat constructor; try (eexists; reflexivity);
    right; right; eexists; reflexivity.
Qed.

(** Whatever is done at the console, the lists stay well shaped. *)
Lemma run_well_shaped (evs : list (Date * AgentStudio.event))
    (st : AgentStudio.state) :
  well_shaped st -> well_shaped (fst (AgentStudio.run evs st)).
Proof.
  revert st. induction evs as [|[now ev] evs IH]; intros st Hs; simpl;
    [exact Hs|].
  destruct (AgentStudio.step now ev st) as [[st' effs]|] eqn:E;
    [|now apply IH].
  specialize (IH st' (shape_preserved now ev st st' effs Hs E)).
  now destruct (AgentStudio.run evs st').
Qed.

(** C10: an add or a remove in one of the four training lists leaves the
    other three as they were. *)
Theorem edit_touches_one_list (k k' : kind) (now : Date)
    (ev : AgentStudio.event) (st st' : AgentStudio.state)
    (effs : list AgentStudio.effect) :
  edits ev = Some k ->
  AgentStudio.step now ev st = Some (st', effs) ->
  k' <> k ->
  list_of k' st' = list_of k' st.
Proof.
  intros Hk H Hne. apply (step_frame now ev st st' effs k' H). congruence.
Qed.

(** ** The console and the backend *)

Section ConsoleAndServer.

Variable T : Backend.template.
Variable env : Backend.environment.

Lemma world_step_server (now : Date) (ev : AgentStudio.event)
    (w : World.world) :
  World.server (World.step T env now ev w) = World.server w.
Proof.
  unfold World.step.
  destruct (AgentStudio.step now ev (World.console w)) as [[st effs]|] eqn:E;
    [|reflexivity].
  simpl. unfold World.deliver. now rewrite (step_requests _ _ _ _ _ E).
Qed.

(** Nothing done at the console reaches the data directory. *)
Lemma console_never_reaches_server (evs : list (Date * AgentStudio.event))
    (w : World.world) :
  World.server (World.run T env evs w) = World.server w.
Proof.
  unfold World.run. revert w.
  induction evs as [|[now ev] evs IH]; intros w; simpl; [reflexivity|].
  now rewrite IH, world_step_server.
Qed.

(** So the prompt preview after a session is the one from before it. *)
Lemma preview_unmoved (evs : list (Date * AgentStudio.event))
    (w : World.world) (now : Date) (id : jsstring) :
  World.prompt_preview T env now id (World.run T env evs w)
  = World.prompt_preview T env now id w.
Proof.
  unfold World.prompt_preview. now rewrite console_never_reaches_server.
Qed.

End ConsoleAndServer.

(** C1: the session of [Sample] on the seeded console.  The new rule is in
    the console's own list, trimmed and dated, and the "Saved" badge is up;
    but the only thing save asked for is the timer that takes the badge
    down again: no request leaves the console, the data directory of the
    backend is what it was, and so is the next prompt preview. *)
Theorem save_transmits_nothing (T : Backend.template)
    (env : Backend.environment) (files : Backend.store) (id : jsstring) :
  let w := World.mk AgentStudio.init files in
  let w' := World.run T env Sample.session w in
  let out := AgentStudio.run Sample.session AgentStudio.init in
  AgentStudio.rules (fst out) = AgentStudio.SEED.rules ++ [Sample.new_rule]
  /\ AgentStudio.saved (fst out) = true
  /\ snd out = [AgentStudio.SetTimeout AgentStudio.ClearSaved 2000]
  /\ AgentStudio.requests (snd out) = []
  /\ World.server w' = files
  /\ World.prompt_preview T env Sample.noon id w'
     = World.prompt_preview T env Sample.noon id w.
Proof.
  intros w w' out. split; [|split; [|split; [|split; [|split]]]].
  - vm_compute. reflexivity.
  - vm_compute. reflexivity.
  - vm_compute. reflexivity.
  - apply run_requests.
  - unfold w'. now rewrite console_never_reaches_server.
  - unfold w'. apply preview_unmoved.
Qed.

(** ** Occurrences *)

Lemma occurs_in_refl (s : jsstring) : occurs_in s s.
Proof. exists [], []. now rewrite app_nil_r. Qed.

Lemma occurs_in_app_r (s t u : jsstring) :
  occurs_in s t -> occurs_in s (u ++ t).
Proof.
  intros (pre & post & ->). exists (u ++ pre), post. now rewrite <- app_assoc.
Qed.

Lemma occurs_in_app_l (s t u : jsstring) :
  occurs_in s t -> occurs_in s (t ++ u).
Proof.
  intros (pre & post & ->). exists pre, (post ++ u).
  now rewrite <- !app_assoc.
Qed.

Lemma occurs_in_trans (s t u : jsstring) :
  occurs_in s t -> occurs_in t u -> occurs_in s u.
Proof.
  intros Hs (pre & post & ->). now apply occurs_in_app_r, occurs_in_app_l.
Qed.

Lemma occurs_before_app (a b x y : jsstring) :
  occurs_in a x -> occurs_in b y -> occurs_before a b (x ++ y).
Proof.
  intros (p1 & q1 & ->) (p2 & q2 & ->).
  exists p1, (q1 ++ p2), q2. now rewrite <- !app_assoc.
Qed.

Lemma occurs_before_app_r (a b t u : jsstring) :
  occurs_before a b t -> occurs_before a b (u ++ t).
Proof.
  intros (p & m & q & ->). exists (u ++ p), m, q. now rewrite <- app_assoc.
Qed.

Lemma occurs_before_app_l (a b t u : jsstring) :
  occurs_before a b t -> occurs_before a b (t ++ u).
Proof.
  intros (p & m & q & ->). exists p, m, (q ++ u). now rewrite <- !app_assoc.
Qed.

Lemma occurs_in_concat (x : jsstring) (l : list jsstring) :
  x ∈ l -> occurs_in x (concat l).
Proof.
  intros H. apply list_elem_of_split in H as (l1 & l2 & ->).
  rewrite concat_app. simpl. exists (concat l1), (concat l2). reflexivity.
Qed.

Lemma occurs_in_optional (label : jsstring) (o : object) (k : string) :
  occurs_in (Backend.text o k) (Backend.optional label o k).
Proof.
  unfold Backend.optional. destruct (Backend.text o k) as [|c s].
  - apply occurs_in_refl.
  - apply occurs_in_app_r, occurs_in_refl.
Qed.

(** ** The prompt *)

Section PromptFacts.

Variable T : Backend.template.

Ltac here := apply occurs_in_refl.
Ltac skip_l := apply occurs_in_app_r.
Ltac skip_r := apply occurs_in_app_l.

Lemma rule_in_block (tr : Backend.training) (r : object) :
  r ∈ Backend.t_rules tr ->
  occurs_in (Backend.text r "rule") (Backend.rules_block T tr).
Proof.
  intros H. unfold Backend.rules_block. skip_l.
  apply (occurs_in_trans _ (Backend.render_rule T r)).
  - unfold Backend.render_rule. skip_l. skip_r. here.
  - apply occurs_in_concat, list_elem_of_fmap. eauto.
Qed.

Lemma faq_in_block (tr : Backend.training) (f : object) :
  f ∈ Backend.t_faq tr ->
  occurs_before (Backend.text f "question") (Backend.text f "answer")
                (Backend.faq_block T tr).
Proof.
  intros H. unfold Backend.faq_block. apply occurs_before_app_r.
  assert (Hin : Backend.render_faq T f
                ∈ map (Backend.render_faq T) (Backend.t_faq tr))
    by (apply list_elem_of_fmap; eauto).
  apply occurs_in_concat in Hin as (pre & post & ->).
  apply occurs_before_app_r, occurs_before_app_l.
  unfold Backend.render_faq.
  exists (Backend.question_label T), (Backend.answer_label T),
         (Backend.faq_close T).
  reflexivity.
Qed.

Lemma example_in_block (tr : Backend.training) (e : object) (k : string) :
  e ∈ Backend.t_examples tr ->
  k ∈ ["scenario"; "good_response"; "bad_response"] ->
  occurs_in (Backend.text e k) (Backend.examples_block T tr).
Proof.
  intros H Hk. unfold Backend.examples_block. skip_l.
  apply (occurs_in_trans _ (Backend.render_example T e)).
  - unfold Backend.render_example.
    apply elem_of_cons in Hk as [->|Hk]; [skip_l; skip_r; here|].
    apply elem_of_cons in Hk as [->|Hk];
      [skip_l; skip_l; skip_l; skip_r; here|].
    apply elem_of_cons in Hk as [->|Hk]; [|now apply elem_of_nil in Hk].
    do 4 skip_l. skip_r. apply occurs_in_optional.
  - apply occurs_in_concat, list_elem_of_fmap. eauto.
Qed.

Lemma correction_in_block (tr : Backend.training) (c : object) (k : string) :
  c ∈ Backend.t_corrections tr ->
  k ∈ ["situation"; "wrong"; "correction"] ->
  occurs_in (Backend.text c k) (Backend.corrections_block T tr).
Proof.
  intros H Hk. unfold Backend.corrections_block. skip_l. skip_r.
  apply (occurs_in_trans _ (Backend.render_correction T c)).
  - unfold Backend.render_correction.
    apply elem_of_cons in Hk as [->|Hk]; [skip_l; skip_r; here|].
    apply elem_of_cons in Hk as [->|Hk];
      [skip_l; skip_l; skip_r; apply occurs_in_optional|].
    apply elem_of_cons in Hk as [->|Hk]; [|now apply elem_of_nil in Hk].
    do 4 skip_l. skip_r. here.
  - apply occurs_in_concat, list_elem_of_fmap. eauto.
Qed.

(** A GET leaves the data directory alone. *)
Lemma get_is_read_only (env : Backend.environment) (now : Date)
    (req : Http.request) (s : Backend.store) :
  (forall id type data, req <> Http.POST_training id type data) ->
  fst (Backend.handle T env now req s) = s.
Proof.
  intros H. destruct req as [|id|id|id|id type data]; simpl;
    try destruct (s !! id); try reflexivity.
  now destruct (H id type data).
Qed.

(** A rule that was posted is, verbatim, in the next prompt preview. *)
Lemma posted_rule_in_next_preview (env : Backend.environment)
    (now later : Date) (id : jsstring) (data : object) (s : Backend.store) :
  is_Some (s !! id) ->
  let s' := fst (Backend.handle T env now
                   (Http.POST_training id (lit "rule") data) s) in
  exists p, snd (Backend.handle T env later (Http.GET_prompt_preview id) s')
            = Backend.Prompt p
            /\ occurs_in (Backend.text data "rule") p.
Proof.
  intros [f Hf]. cbv zeta.
  assert (E : Backend.handle T env now
                (Http.POST_training id (lit "rule") data) s
              = (<[id := Backend.mkFiles (Backend.config f)
                    (Backend.mkTraining
                       (Backend.t_rules (Backend.training_file f)
                        ++ [<["added_at" := today now]> data])
                       (Backend.t_faq (Backend.training_file f))
                       (Backend.t_examples (Backend.training_file f))
                       (Backend.t_corrections (Backend.training_file f)))]> s,
                 Backend.Created)).
  { unfold Backend.handle, Backend.add_training. rewrite Hf.
    now rewrite bool_decide_eq_true_2 by reflexivity. }
  rewrite E. unfold Backend.handle, fst, snd. rewrite lookup_insert_eq.
  eexists. split; [reflexivity|].
  unfold Backend.build_prompt. skip_l. skip_r.
  unfold Backend.rules_block, Backend.t_rules, Backend.training_file. skip_l.
  rewrite map_app, concat_app. skip_l.
  change (concat (map (Backend.render_rule T) [?x]))
    with (Backend.render_rule T x ++ []).
  skip_r. unfold Backend.render_rule. skip_l. skip_r.
  unfold Backend.text. rewrite lookup_insert_ne by discriminate. here.
Qed.

End PromptFacts.

(** C2: the prompt is the business config, then the rules, then the FAQ
    pairs, then the examples, then the corrections with the closing
    emphasis at the very end; every text of every record is in its block
    verbatim (a question before its answer); and a preview request is
    answered from the files as they are after whatever requests came
    before, without changing them. *)
Theorem prompt_assembly (T : Backend.template) (env : Backend.environment)
    (cfg : Backend.agent_config) (tr : Backend.training) :
  Backend.build_prompt T cfg tr
  = Backend.render_config T cfg
    ++ (Backend.rules_header T
        ++ concat (map (Backend.render_rule T) (Backend.t_rules tr)))
    ++ (Backend.faq_header T
        ++ concat (map (Backend.render_faq T) (Backend.t_faq tr)))
    ++ (Backend.examples_header T
        ++ concat (map (Backend.render_example T) (Backend.t_examples tr)))
    ++ (Backend.corrections_header T
        ++ concat (map (Backend.render_correction T) (Backend.t_corrections tr))
        ++ Backend.closing_emphasis T)
  /\ Forall (fun r => occurs_in (Backend.text r "rule")
                                (Backend.rules_block T tr))
            (Backend.t_rules tr)
  /\ Forall (fun f => occurs_before (Backend.text f "question")
                                    (Backend.text f "answer")
                                    (Backend.faq_block T tr))
            (Backend.t_faq tr)
  /\ Forall (fun e => Forall (fun k => occurs_in (Backend.text e k)
                                         (Backend.examples_block T tr))
                             ["scenario"; "good_response"; "bad_response"])
            (Backend.t_examples tr)
  /\ Forall (fun c => Forall (fun k => occurs_in (Backend.text c k)
                                         (Backend.corrections_block T tr))
                             ["situation"; "wrong"; "correction"])
            (Backend.t_corrections tr)
  /\ Backend.closing_emphasis T `suffix_of` Backend.build_prompt T cfg tr
  /\ (forall reqs s now id,
        let s' := Backend.serve T env reqs s in
        Backend.handle T env now (Http.GET_prompt_preview id) s'
        = (s', match s' !! id with
               | Some f => Backend.Prompt
                             (Backend.build_prompt T (Backend.config f)
                                (Backend.training_file f))
               | None => Backend.AgentNotFound
               end)).
Proof.
  split; [reflexivity|].
  split; [apply Forall_forall; intros r Hr; now apply rule_in_block|].
  split; [apply Forall_forall; intros f Hf; now apply faq_in_block|].
  split; [apply Forall_forall; intros e He; apply Forall_forall; intros k Hk;
          now apply example_in_block|].
  split; [apply Forall_forall; intros c Hc; apply Forall_forall; intros k Hk;
          now apply correction_in_block|].
  split.
  - exists (Backend.render_config T cfg ++ Backend.rules_block T tr
            ++ Backend.faq_block T tr ++ Backend.examples_block T tr
            ++ Backend.corrections_header T
            ++ concat (map (Backend.render_correction T)
                           (Backend.t_corrections tr))).
    unfold Backend.build_prompt, Backend.corrections_block.
    now rewrite <- !app_assoc.
  - intros reqs s now id s'. unfold Backend.handle. now destruct (s' !! id).
Qed.

(** ** Health *)

(** C7: the health response says "ok", says the API is configured exactly
    when the key is set, gives the data directory of the environment, and
    lists exactly the agents that have files in it, each once. *)
Theorem health_reports_configuration (env : Backend.environment)
    (s : Backend.store) :
  let h := Backend.health env s in
  Backend.status h = lit "ok"
  /\ (Backend.api_configured h = true
      <-> is_Some (Backend.ANTHROPIC_API_KEY env))
  /\ Backend.data_dir h = Backend.DATA_DIR env
  /\ (forall id, id ∈ Backend.agents h <-> is_Some (s !! id))
  /\ NoDup (Backend.agents h).
Proof.
  cbv zeta. unfold Backend.health.
  cbn [Backend.status Backend.api_configured Backend.data_dir Backend.agents].
  split; [reflexivity|]. split; [apply bool_decide_eq_true|].
  split; [reflexivity|]. split.
  - intros id. rewrite list_elem_of_fmap. split.
    + intros ([id' f] & -> & H). apply elem_of_map_to_list in H. now exists f.
    + intros [f H]. exists (id, f). split; [reflexivity|].
      now apply elem_of_map_to_list.
  - apply NoDup_fst_map_to_list.
Qed.

(** The response shown in the deployment guide. *)
Example health_of_the_guide (T : Backend.template) (now : Date) :
  Backend.handle T Deployment.env now Http.GET_health Deployment.files
  = (Deployment.files,
     Backend.Health (Backend.mkHealth (lit "ok") true (lit "/app/data")
                                      [lit "vamos-events"])).
Proof. vm_compute. reflexivity. Qed.

(** * The theorems at work

    Each theorem above that has a premise, applied to the sample data. *)

Lemma add_appends_one_witness :
  filled (required KRule (RulesTab.mk Sample.typed))
  /\ exists r : object,
       fst (add_of KRule Sample.noon AgentStudio.SEED.rules
                   (RulesTab.mk Sample.typed))
       = AgentStudio.SEED.rules ++ [r]
       /\ length (fst (add_of KRule Sample.noon AgentStudio.SEED.rules
                              (RulesTab.mk Sample.typed)))
          = S (length AgentStudio.SEED.rules)
       /\ (forall i x, AgentStudio.SEED.rules !! i = Some x ->
             fst (add_of KRule Sample.noon AgentStudio.SEED.rules
                         (RulesTab.mk Sample.typed)) !! i = Some x)
       /\ fst (add_of KRule Sample.noon AgentStudio.SEED.rules
                      (RulesTab.mk Sample.typed))
          !! length AgentStudio.SEED.rules = Some r.
Proof.
  split; [repeat constructor | apply add_appends_one; repeat constructor].
Defined.

Lemma add_stamps_date_witness :
  filled (required KFAQ Sample.faq_boxes)
  /\ exists r : object,
       fst (add_of KFAQ Sample.noon AgentStudio.SEED.faq Sample.faq_boxes)
       = AgentStudio.SEED.faq ++ [r]
       /\ r !! "added_at" = Some (VStr (slice 0 10 (toISOString Sample.noon)))
       /\ ((0 <= year Sample.noon <= 9999)%Z ->
           r !! "added_at" = Some (VStr (utc_date Sample.noon))).
Proof.
  split; [repeat constructor | apply add_stamps_date; repeat constructor].
Defined.

Lemma add_blank_is_noop_witness :
  Exists (fun f => blank (snd f) = true) (required KExample Sample.example_boxes)
  /\ add_of KExample Sample.noon AgentStudio.SEED.examples Sample.example_boxes
     = (AgentStudio.SEED.examples, Sample.example_boxes).
Proof.
  assert (H : Exists (fun f => blank (snd f) = true)
                     (required KExample Sample.example_boxes))
    by (right; left; reflexivity).
  split; [exact H | exact (add_blank_is_noop _ _ _ _ H)].
Defined.

Lemma added_record_is_clean_witness :
  filled (required KCorrection Sample.correction_boxes)
  /\ exists r : object,
       fst (add_of KCorrection Sample.noon AgentStudio.SEED.corrections
                   Sample.correction_boxes)
       = AgentStudio.SEED.corrections ++ [r]
       /\ (forall f v, (f, v) ∈ required KCorrection Sample.correction_boxes ->
             r !! f = Some (VStr (trim v)) /\ trim v <> []
             /\ stripped (trim v))
       /\ (forall f v, (f, v) ∈ optionals KCorrection Sample.correction_boxes ->
             (blank v = true /\ r !! f = Some VNull)
             \/ (blank v = false /\ r !! f = Some (VStr (trim v))
                 /\ trim v <> [] /\ stripped (trim v)))
       /\ (forall f, r !! f <> Some (VStr [])).
Proof.
  split; [repeat constructor | apply added_record_is_clean; repeat constructor].
Defined.


Lemma step_keeps_shape_witness :
  well_shaped Sample.typed_in
  /\ AgentStudio.step Sample.noon AgentStudio.RulesAdd Sample.typed_in
     = Some (Sample.added, [])
  /\ well_shaped Sample.added.
Proof.
  assert (Hs : well_shaped Sample.typed_in) by exact init_well_shaped.
  assert (E : AgentStudio.step Sample.noon AgentStudio.RulesAdd Sample.typed_in
              = Some (Sample.added, [])) by (vm_compute; reflexivity).
  exact (conj Hs (conj E (step_keeps_shape _ _ _ _ _ Hs E))).
Defined.

Lemma edit_touches_one_list_witness :
  edits AgentStudio.RulesAdd = Some KRule
  /\ AgentStudio.step Sample.noon AgentStudio.RulesAdd Sample.typed_in
     = Some (Sample.added, [])
  /\ KFAQ <> KRule
  /\ list_of KFAQ Sample.added = list_of KFAQ Sample.typed_in.
Proof.
  assert (E : AgentStudio.step Sample.noon AgentStudio.RulesAdd Sample.typed_in
              = Some (Sample.added, [])) by (vm_compute; reflexivity).
  assert (N : KFAQ <> KRule) by discriminate.
  assert (K : edits AgentStudio.RulesAdd = Some KRule) by reflexivity.
  exact (conj K (conj E (conj N
           (edit_touches_one_list KRule KFAQ _ _ _ _ _ K E N)))).
Defined.

(** * Further properties of the console *)

(** ** The add button and the guard *)

Lemma disabled_blank (k : kind) (st : inputs k) :
  disabled k st = true <-> Exists (fun f => blank (snd f) = true) (required k st).
Proof.
  destruct k; simpl; unfold js_not; rewrite ?truthy_trim, ?negb_involutive;
    rewrite ?Exists_cons, ?Exists_nil, ?orb_true_iff; simpl; tauto.
Qed.

Lemma enabled_filled (k : kind) (st : inputs k) :
  disabled k st = false <-> filled (required k st).
Proof.
  unfold filled.
  destruct k; simpl; unfold js_not; rewrite ?truthy_trim, ?negb_involutive;
    rewrite ?Forall_cons, ?Forall_nil, ?orb_false_iff; simpl; tauto.
Qed.

(** The record add builds does not depend on the list it is added to. *)
Lemma add_record (k : kind) (now : Date) (st : inputs k) :
  exists r : object, forall l,
    filled (required k st) -> add_of k now l st = (l ++ [r], cleared k).
Proof.
  destruct k; simpl; eexists; intros l H.
  - apply Forall_cons in H as [H _]. simpl in H.
    unfold RulesTab.add. rewrite truthy_trim, H. reflexivity.
  - unfold FAQTab.add. rewrite truthy_and_trim. two_fields H. reflexivity.
  - unfold ExamplesTab.add. rewrite truthy_and_trim. two_fields H.
    reflexivity.
  - unfold CorrectionsTab.add. rewrite truthy_and_trim. two_fields H.
    reflexivity.
Qed.

Lemma cleared_blank (k : kind) :
  Exists (fun f => blank (snd f) = true) (required k (cleared k)).
Proof. destruct k; left; reflexivity. Qed.

(** X1: the Add button of a tab is disabled exactly when its handler
    would do nothing: with the button disabled add returns the list and
    the boxes untouched, with it enabled add appends one record and clears
    the boxes. *)
Theorem add_button_agrees_with_guard (k : kind) (now : Date)
    (l : list object) (st : inputs k) :
  if disabled k st
  then add_of k now l st = (l, st)
  else exists r : object, add_of k now l st = (l ++ [r], cleared k).
Proof.
  destruct (disabled k st) eqn:D.
  - apply add_blank, disabled_blank, D.
  - apply enabled_filled in D. destruct (add_record k now st) as [r Hr].
    exists r. now apply Hr.
Qed.

(** X2: pressing Add a second time right after the first adds nothing
    more: a successful add clears the boxes, so the second call finds them
    blank; a refused add is refused again. *)
Theorem add_twice_adds_once (k : kind) (now later : Date) (l : list object)
    (st : inputs k) :
  let once := add_of k now l st in
  add_of k later (fst once) (snd once) = once.
Proof.
  cbv zeta. destruct (filled_or_blank (required k st)) as [H|H].
  - destruct (add_record k now st) as [r Hr]. rewrite (Hr l H). simpl.
    apply add_blank, cleared_blank.
  - rewrite (add_blank k now l st H). simpl. now apply add_blank.
Qed.

(** X3: removing at the position just past the old end, right after an
    add, gives back the list from before the add, whether the add went
    through or was refused. *)
Theorem remove_undoes_add (k : kind) (now : Date) (l : list object)
    (st : inputs k) :
  remove_of k (length l) (fst (add_of k now l st)) = l.
Proof.
  rewrite remove_of_delete.
  destruct (filled_or_blank (required k st)) as [H|H].
  - destruct (add_record k now st) as [r Hr]. rewrite (Hr l H). simpl.
    rewrite take_app_length.
    rewrite drop_app_ge by lia.
    replace (S (length l) - length l) with 1 by lia. simpl.
    apply app_nil_r.
  - rewrite (add_blank k now l st H). simpl.
    rewrite take_ge, drop_ge by lia. apply app_nil_r.
Qed.

(** X4: for an index inside the list, removing and then adding gives
    the same list as adding and then removing at that index. *)
Theorem remove_commutes_with_add (k : kind) (now : Date) (i : nat)
    (l : list object) (st : inputs k) :
  i < length l ->
  fst (add_of k now (remove_of k i l) st)
  = remove_of k i (fst (add_of k now l st)).
Proof.
  intros Hi. destruct (filled_or_blank (required k st)) as [H|H].
  - destruct (add_record k now st) as [r Hr]. rewrite !(Hr _ H). simpl.
    rewrite !remove_of_delete.
    rewrite take_app_le by lia. rewrite drop_app_le by lia.
    now rewrite <- app_assoc.
  - now rewrite !(add_blank k now _ st H).
Qed.

(** X5: an index at or past the end of the list, as any index is for
    the empty list, removes nothing. *)
Theorem remove_past_the_end (k : kind) (i : nat) (l : list object) :
  length l <= i -> remove_of k i l = l.
Proof.
  intros H. rewrite remove_of_delete, take_ge, drop_ge by lia.
  apply app_nil_r.
Qed.

(** X6: whatever the index, what remove returns is a sublist of the list
    (same records, same order) with at most one record fewer. *)
Theorem remove_loses_at_most_one (k : kind) (i : nat) (l : list object) :
  remove_of k i l `sublist_of` l
  /\ length l <= S (length (remove_of k i l)).
Proof.
  rewrite remove_of_delete. split.
  - rewrite <- delete_take_drop. apply sublist_delete.
  - rewrite length_app, length_take, length_drop. lia.
Qed.

Lemma delete_commute {A} (l : list A) (i j : nat) :
  i <= j -> delete i (delete (S j) l) = delete j (delete i l).
Proof.
  revert i j. induction l as [|x l IH]; intros i j Hij; [reflexivity|].
  destruct i as [|i]; [reflexivity|].
  destruct j as [|j]; [lia|]. simpl. f_equal. apply IH. lia.
Qed.

(** X7: two removals can be done in either order, once the later index
    is shifted down past the earlier one. *)
Theorem removes_commute (k : kind) (i j : nat) (l : list object) :
  i <= j ->
  remove_of k i (remove_of k (S j) l) = remove_of k j (remove_of k i l).
Proof.
  intros H. rewrite !remove_of_delete, <- !delete_take_drop.
  now apply delete_commute.
Qed.

(** X8: a record that add creates has exactly the properties of its
    kind: the required ones, the optional ones and added_at, nothing else. *)
Theorem added_record_keys (k : kind) (now : Date) (l : list object)
    (st : inputs k) :
  filled (required k st) ->
  exists r : object,
    fst (add_of k now l st) = l ++ [r]
    /\ forall f, is_Some (r !! f)
         <-> f = "added_at" \/ f ∈ map fst (required k st ++ optionals k st).
Proof.
  intros H.
  destruct (add_filled k now l st H) as (r & E & Hreq & Hopt & Hd & Hdom).
  exists r. rewrite E. split; [reflexivity|]. intros f. split; [apply Hdom|].
  intros [->|Hin]; [now rewrite Hd|].
  rewrite map_app in Hin. apply elem_of_app in Hin as [Hin|Hin];
    apply list_elem_of_fmap in Hin as ([f' v] & -> & Hin); simpl.
  - now rewrite (Hreq f' v Hin).
  - now rewrite (Hopt f' v Hin).
Qed.

Lemma blank_trim (s : jsstring) : blank (trim s) = blank s.
Proof.
  destruct (blank s) eqn:B.
  - apply trim_nil_iff in B. now rewrite B.
  - destruct (blank (trim s)) eqn:B'; [|reflexivity].
    apply trim_nil_iff in B'. rewrite trim_idempotent in B'.
    apply trim_nil_iff in B'. congruence.
Qed.

(** X18: white space around the text in the boxes makes no difference to
    the list add returns: trimming every box by hand first gives the same
    result. *)
Theorem add_ignores_outer_space (k : kind) (now : Date) (l : list object)
    (st : inputs k) :
  fst (add_of k now l (trimmed k st)) = fst (add_of k now l st).
Proof.
  destruct k; unfold add_of, trimmed, RulesTab.add, FAQTab.add,
    ExamplesTab.add, CorrectionsTab.add;
    cbn [RulesTab.newRule FAQTab.q FAQTab.a ExamplesTab.scenario
         ExamplesTab.good ExamplesTab.bad CorrectionsTab.sit
         CorrectionsTab.wrong CorrectionsTab.fix_];
    rewrite !trim_idempotent;
    match goal with |- context [if ?c then _ else _] => destruct c end;
    reflexivity.
Qed.

(** ** The date stamp *)

Lemma is_digit_digit (n : N) : is_digit (digit (n mod 10)) = true.
Proof.
  unfold is_digit, digit.
  assert (H : (n mod 10 < 10)%N) by (apply N.mod_upper_bound; lia).
  revert H. generalize (n mod 10)%N. intros m H.
  apply andb_true_intro. split; apply N.leb_le; lia.
Qed.

(** X9: for an instant in the years 0 to 9999, the stamp that add stores
    is ten characters of the form DDDD-DD-DD. *)
Theorem stamp_is_a_date (now : Date) :
  (0 <= year now <= 9999)%Z ->
  exists s, today now = VStr s /\ date_shaped s = true.
Proof.
  intros Hy. exists (utc_date now). unfold today. rewrite iso_date by exact Hy.
  split; [reflexivity|]. unfold utc_date.
  change (lit "-") with [45%N]. cbn [pad app date_shaped forallb].
  rewrite !is_digit_digit. reflexivity.
Qed.

(** X10: for an instant outside the years 0 to 9999, the ISO form has a
    sign and six digits of year, so the ten characters that add keeps are
    sign, year, hyphen and month: the day is cut off and the stamp is not
    of the form DDDD-DD-DD. *)
Theorem stamp_of_a_far_year (now : Date) :
  ~ (0 <= year now <= 9999)%Z ->
  let s := (if (year now <? 0)%Z then lit "-" else lit "+")
           ++ pad 6 (Z.to_N (Z.abs (year now))) ++ lit "-"
           ++ pad 2 (month now) in
  today now = VStr s /\ date_shaped s = false.
Proof.
  intros Hy s. split.
  - unfold today. f_equal. unfold toISOString, iso_year.
    assert (E : ((0 <=? year now) && (year now <=? 9999))%Z = false).
    { apply andb_false_iff.
      destruct (Z.leb_spec 0 (year now)); [right|now left].
      apply Z.leb_gt. lia. }
    rewrite E.
    assert (L : length s = 10).
    { unfold s. rewrite !length_app, !pad_length.
      now destruct (year now <? 0)%Z. }
    change 10%Z with (Z.of_nat 10). rewrite <- L.
    set (rest := lit "-" ++ pad 2 (day now) ++ _).
    replace (((if (year now <? 0)%Z then lit "-" else lit "+")
              ++ pad 6 (Z.to_N (Z.abs (year now))))
             ++ lit "-" ++ pad 2 (month now) ++ rest) with (s ++ rest).
    + apply slice_prefix.
    + unfold s. now rewrite <- !app_assoc.
  - unfold s. destruct (year now <? 0)%Z.
    + change (lit "-") with [45%N]. reflexivity.
    + change (lit "+") with [43%N]. change (lit "-") with [45%N].
      reflexivity.
Qed.

(** ** Saving and timers *)

(** X11: each press of Save schedules its own timer of 2000 ms and none
    is cancelled: after two presses, the first timer to fire takes the
    badge down, and nothing else of the state has changed. *)
Theorem save_timers_are_not_cancelled (t0 t1 t2 : Date)
    (st : AgentStudio.state) :
  AgentStudio.run [ (t0, AgentStudio.ClickSave); (t1, AgentStudio.ClickSave);
                    (t2, AgentStudio.TimerFired AgentStudio.ClearSaved) ] st
  = (AgentStudio.setSaved false st,
     [ AgentStudio.SetTimeout AgentStudio.ClearSaved 2000;
       AgentStudio.SetTimeout AgentStudio.ClearSaved 2000 ]).
Proof. reflexivity. Qed.

Lemma step_effects (now : Date) (ev : AgentStudio.event)
    (st st' : AgentStudio.state) (effs : list AgentStudio.effect) :
  AgentStudio.step now ev st = Some (st', effs) ->
  effs = if is_save ev
         then [AgentStudio.SetTimeout AgentStudio.ClearSaved 2000] else [].
Proof. intros H. destruct ev; step_cases H; reflexivity. Qed.

(** X12: over a whole session, the only thing the console ever asks of
    the browser is the badge timer, once per press of Save; in particular
    it never makes an HTTP request. *)
Theorem only_effect_is_the_badge_timer
    (evs : list (Date * AgentStudio.event)) (st : AgentStudio.state) :
  snd (AgentStudio.run evs st)
  = replicate (count_saves evs)
              (AgentStudio.SetTimeout AgentStudio.ClearSaved 2000).
Proof.
  unfold count_saves. revert st.
  induction evs as [|[now ev] evs IH]; intros st; [reflexivity|].
  simpl AgentStudio.run. rewrite filter_cons. simpl snd at 2.
  destruct (AgentStudio.step now ev st) as [[st' effs]|] eqn:E.
  - specialize (IH st'). destruct (AgentStudio.run evs st') as [st'' effs'].
    simpl in *. rewrite IH, (step_effects _ _ _ _ _ E).
    destruct (is_save ev); case_decide; try congruence; reflexivity.
  - rewrite IH. destruct ev; try discriminate E; case_decide;
      try discriminate; reflexivity.
Qed.

(** ** Tabs *)

(** X13: going to another tab and back leaves the lists, the badge and
    the tab as they were, but the text typed in the boxes of the tab is
    gone: the component is mounted afresh. *)
Theorem leaving_a_tab_clears_its_boxes (t1 t2 : Date) (id : string)
    (st : AgentStudio.state) :
  id ∈ AgentStudio.tab_ids ->
  AgentStudio.tab st ∈ AgentStudio.tab_ids ->
  id <> AgentStudio.tab st ->
  AgentStudio.run [ (t1, AgentStudio.ClickTab id);
                    (t2, AgentStudio.ClickTab (AgentStudio.tab st)) ] st
  = (AgentStudio.setView (AgentStudio.mount (AgentStudio.tab st)) st, []).
Proof.
  intros Hid Htab Hne. unfold AgentStudio.run, AgentStudio.step.
  assert (E1 : String.eqb id (AgentStudio.tab st) = false)
    by now apply String.eqb_neq.
  assert (E2 : String.eqb (AgentStudio.tab st) id = false)
    by (apply String.eqb_neq; congruence).
  destruct (AgentStudio.view st);
    rewrite (bool_decide_eq_true_2 _ Hid); unfold AgentStudio.setTab at 2;
    rewrite E1; cbn [AgentStudio.view]; destruct (AgentStudio.mount id);
    rewrite (bool_decide_eq_true_2 _ Htab); unfold AgentStudio.setTab;
    cbn [AgentStudio.tab]; rewrite E2; reflexivity.
Qed.

Lemma consistent_tab (st : AgentStudio.state) :
  consistent st -> AgentStudio.tab st ∈ AgentStudio.tab_ids.
Proof.
  unfold consistent. destruct (AgentStudio.view st); simpl;
    try discriminate; intros [= <-]; unfold AgentStudio.tab_ids;
    set_solver.
Qed.

Lemma mount_tab (id : string) :
  id ∈ AgentStudio.tab_ids -> tab_of_view (AgentStudio.mount id) = Some id.
Proof.
  unfold AgentStudio.tab_ids. intros H.
  repeat (apply elem_of_cons in H as [->|H]; [reflexivity|]).
  now apply elem_of_nil in H.
Qed.

Lemma step_consistent (now : Date) (ev : AgentStudio.event)
    (st st' : AgentStudio.state) (effs : list AgentStudio.effect) :
  consistent st ->
  AgentStudio.step now ev st = Some (st', effs) ->
  consistent st'.
Proof.
  unfold consistent. intros Hc H. destruct ev; step_cases H;
    try (unfold AgentStudio.save, AgentStudio.setRules, AgentStudio.setFaq,
           AgentStudio.setExamples, AgentStudio.setCorrections,
           AgentStudio.setSaved, AgentStudio.setView;
         cbn [AgentStudio.view AgentStudio.tab fst];
         first [ exact Hc
               | match goal with
                 | E : AgentStudio.view _ = _ |- _ => rewrite E; exact Hc
                 end ]).
  all: unfold AgentStudio.setTab;
    destruct (String.eqb id (AgentStudio.tab st)); [exact Hc|];
    simpl; apply mount_tab;
    match goal with E : bool_decide _ = true |- _ =>
      now apply bool_decide_eq_true_1 in E end.
Qed.

(** X14: in every state the console can reach from its initial state,
    exactly one of the five tab buttons is highlighted, and the component
    on the page is the one of that tab. *)
Theorem one_tab_is_highlighted (evs : list (Date * AgentStudio.event)) :
  let st := fst (AgentStudio.run evs AgentStudio.init) in
  length (filter (fun b => b = true) (highlighted st)) = 1
  /\ tab_of_view (AgentStudio.view st) = Some (AgentStudio.tab st).
Proof.
  cbv zeta.
  assert (H : consistent (fst (AgentStudio.run evs AgentStudio.init))).
  { assert (Hi : consistent AgentStudio.init) by reflexivity.
    revert Hi. generalize AgentStudio.init.
    induction evs as [|[now ev] evs IH]; intros st Hs; [exact Hs|].
    simpl. destruct (AgentStudio.step now ev st) as [[st' effs]|] eqn:E;
      [|now apply IH].
    specialize (IH st' (step_consistent _ _ _ _ _ Hs E)).
    now destruct (AgentStudio.run evs st'). }
  split; [|exact H]. apply consistent_tab in H. unfold highlighted.
  unfold AgentStudio.tab_ids in H.
  repeat (apply elem_of_cons in H as [->|H]; [reflexivity|]).
  now apply elem_of_nil in H.
Qed.

(** ** Cards *)

Lemma shown_optional (s : jsstring) :
  shown (Some (if blank s then VNull else VStr (trim s))) = negb (blank s).
Proof.
  destruct (blank s) eqn:B; [reflexivity|]. unfold shown.
  now rewrite truthy_trim, B.
Qed.

(** X15: the card of an example just added shows the trimmed scenario and
    good response, and an AVOID block exactly when the optional box was not
    blank, with its trimmed text. *)
Theorem new_example_card (now : Date) (l : list object)
    (st : ExamplesTab.state) :
  filled (required KExample st) ->
  exists r : object,
    fst (ExamplesTab.add now l st) = l ++ [r]
    /\ example_card r
       = [ (lit "SCENARIO", Some (VStr (trim (ExamplesTab.scenario st))));
           (lit "✓ GOOD RESPONSE", Some (VStr (trim (ExamplesTab.good st)))) ]
         ++ (if blank (ExamplesTab.bad st) then []
             else [ (lit "✗ AVOID", Some (VStr (trim (ExamplesTab.bad st)))) ]).
Proof.
  intros H.
  destruct (add_filled KExample now l st H) as (r & E & Hreq & Hopt & _).
  exists r. split; [exact (f_equal fst E)|]. unfold example_card.
  rewrite (Hreq "scenario" (ExamplesTab.scenario st)) by (simpl; set_solver).
  rewrite (Hreq "good_response" (ExamplesTab.good st)) by (simpl; set_solver).
  rewrite (Hopt "bad_response" (ExamplesTab.bad st)) by (simpl; set_solver).
  rewrite shown_optional. now destruct (blank (ExamplesTab.bad st)).
Qed.

(** X16: the card of a correction just added shows the trimmed situation
    and fix, and an "Instead of" line between them exactly when the
    optional box was not blank. *)
Theorem new_correction_card (now : Date) (l : list object)
    (st : CorrectionsTab.state) :
  filled (required KCorrection st) ->
  exists r : object,
    fst (CorrectionsTab.add now l st) = l ++ [r]
    /\ correction_card r
       = [ (lit "WHEN: ", Some (VStr (trim (CorrectionsTab.sit st)))) ]
         ++ (if blank (CorrectionsTab.wrong st) then []
             else [ (lit "Instead of: ",
                     Some (VStr (trim (CorrectionsTab.wrong st)))) ])
         ++ [ (lit "Do this: ", Some (VStr (trim (CorrectionsTab.fix_ st)))) ].
Proof.
  intros H.
  destruct (add_filled KCorrection now l st H) as (r & E & Hreq & Hopt & _).
  exists r. split; [exact (f_equal fst E)|]. unfold correction_card.
  rewrite (Hreq "situation" (CorrectionsTab.sit st)) by (simpl; set_solver).
  rewrite (Hreq "correction" (CorrectionsTab.fix_ st)) by (simpl; set_solver).
  rewrite (Hopt "wrong" (CorrectionsTab.wrong st)) by (simpl; set_solver).
  rewrite shown_optional. now destruct (blank (CorrectionsTab.wrong st)).
Qed.

(** ** Append only *)

Lemma step_extends (now : Date) (ev : AgentStudio.event)
    (st st' : AgentStudio.state) (effs : list AgentStudio.effect) (k : kind) :
  is_remove ev = false ->
  AgentStudio.step now ev st = Some (st', effs) ->
  list_of k st `prefix_of` list_of k st'.
Proof.
  intros Hr H. destruct (decide (edits ev = Some k)) as [Hk|Hk].
  - destruct (edits_inv ev k Hk) as [->|[i ->]].
    + destruct (step_add k now st st' effs H) as (c & _ & -> & _).
      destruct (filled_or_blank (required k c)) as [F|B].
      * destruct (add_filled k now (list_of k st) c F) as (r & -> & _).
        now exists [r].
      * now rewrite (add_blank k now (list_of k st) c B).
    + now destruct k.
  - now rewrite (step_frame now ev st st' effs k H Hk).
Qed.

(** X17: over a session in which no Remove button is pressed, every
    training list at the end starts with the list from the beginning: the
    lists only grow at the end. *)
Theorem lists_only_grow_without_remove
    (evs : list (Date * AgentStudio.event)) (st : AgentStudio.state)
    (k : kind) :
  Forall (fun e => is_remove (snd e) = false) evs ->
  list_of k st `prefix_of` list_of k (fst (AgentStudio.run evs st)).
Proof.
  revert st. induction evs as [|[now ev] evs IH]; intros st Hr; [reflexivity|].
  apply Forall_cons in Hr as [Hev Hr]. simpl in Hev. simpl AgentStudio.run.
  destruct (AgentStudio.step now ev st) as [[st' effs]|] eqn:E;
    [|now apply IH].
  specialize (IH st' Hr). destruct (AgentStudio.run evs st') as [st'' effs'].
  simpl in *. etrans; [|exact IH]. exact (step_extends _ _ _ _ _ k Hev E).
Qed.

(** ** The further properties at work *)

Lemma remove_commutes_with_add_witness :
  0 < length AgentStudio.SEED.faq
  /\ fst (add_of KFAQ Sample.noon (remove_of KFAQ 0 AgentStudio.SEED.faq)
                 Sample.faq_boxes)
     = remove_of KFAQ 0
         (fst (add_of KFAQ Sample.noon AgentStudio.SEED.faq Sample.faq_boxes)).
Proof.
  assert (H : 0 < length AgentStudio.SEED.faq) by (simpl; lia).
  exact (conj H (remove_commutes_with_add KFAQ Sample.noon 0
                   AgentStudio.SEED.faq Sample.faq_boxes H)).
Defined.

Lemma remove_past_the_end_witness :
  length AgentStudio.SEED.rules <= 7
  /\ remove_of KRule 7 AgentStudio.SEED.rules = AgentStudio.SEED.rules.
Proof.
  assert (H : length AgentStudio.SEED.rules <= 7) by (simpl; lia).
  exact (conj H (remove_past_the_end KRule 7 AgentStudio.SEED.rules H)).
Defined.

Lemma removes_commute_witness :
  0 <= 1
  /\ remove_of KRule 0 (remove_of KRule 2 AgentStudio.SEED.rules)
     = remove_of KRule 1 (remove_of KRule 0 AgentStudio.SEED.rules).
Proof.
  assert (H : 0 <= 1) by lia.
  exact (conj H (removes_commute KRule 0 1 AgentStudio.SEED.rules H)).
Defined.

Lemma added_record_keys_witness :
  filled (required KCorrection Sample.correction_boxes)
  /\ exists r : object,
       fst (add_of KCorrection Sample.noon AgentStudio.SEED.corrections
                   Sample.correction_boxes)
       = AgentStudio.SEED.corrections ++ [r]
       /\ forall f, is_Some (r !! f)
            <-> f = "added_at"
                \/ f ∈ map fst (required KCorrection Sample.correction_boxes
                                ++ optionals KCorrection Sample.correction_boxes).
Proof.
  split; [repeat constructor | apply added_record_keys; repeat constructor].
Defined.

Lemma stamp_is_a_date_witness :
  (0 <= year Sample.noon <= 9999)%Z
  /\ exists s, today Sample.noon = VStr s /\ date_shaped s = true.
Proof.
  assert (H : (0 <= year Sample.noon <= 9999)%Z) by (simpl; lia).
  exact (conj H (stamp_is_a_date Sample.noon H)).
Defined.

Lemma stamp_of_a_far_year_witness :
  ~ (0 <= year Cases.far <= 9999)%Z
  /\ today Cases.far = VStr (lit "+012026-11")
  /\ date_shaped (lit "+012026-11") = false.
Proof.
  assert (H : ~ (0 <= year Cases.far <= 9999)%Z) by (simpl; lia).
  exact (conj H (stamp_of_a_far_year Cases.far H)).
Defined.

Lemma leaving_a_tab_clears_its_boxes_witness :
  "faq" ∈ AgentStudio.tab_ids
  /\ AgentStudio.tab Sample.typed_in ∈ AgentStudio.tab_ids
  /\ "faq" <> AgentStudio.tab Sample.typed_in
  /\ AgentStudio.run [ (Sample.noon, AgentStudio.ClickTab "faq");
                       (Sample.noon,
                        AgentStudio.ClickTab (AgentStudio.tab Sample.typed_in)) ]
                     Sample.typed_in
     = (AgentStudio.setView
          (AgentStudio.mount (AgentStudio.tab Sample.typed_in))
          Sample.typed_in, []).
Proof.
  assert (H1 : "faq" ∈ AgentStudio.tab_ids) by repeat constructor.
  assert (H2 : AgentStudio.tab Sample.typed_in ∈ AgentStudio.tab_ids)
    by repeat constructor.
  assert (H3 : "faq" <> AgentStudio.tab Sample.typed_in) by discriminate.
  exact (conj H1 (conj H2 (conj H3
    (leaving_a_tab_clears_its_boxes Sample.noon Sample.noon "faq"
       Sample.typed_in H1 H2 H3)))).
Defined.

Lemma new_example_card_witness :
  filled (required KExample Cases.example_boxes)
  /\ exists r : object,
       fst (ExamplesTab.add Sample.noon AgentStudio.SEED.examples
                            Cases.example_boxes)
       = AgentStudio.SEED.examples ++ [r]
       /\ example_card r
          = [ (lit "SCENARIO", Some (VStr (lit "Prospect asks for a discount")));
              (lit "✓ GOOD RESPONSE",
               Some (VStr (lit "We price by package."))) ].
Proof.
  split; [repeat constructor|].
  apply (new_example_card Sample.noon AgentStudio.SEED.examples
           Cases.example_boxes).
  repeat constructor.
Defined.

Lemma new_correction_card_witness :
  filled (required KCorrection Sample.correction_boxes)
  /\ exists r : object,
       fst (CorrectionsTab.add Sample.noon AgentStudio.SEED.corrections
                               Sample.correction_boxes)
       = AgentStudio.SEED.corrections ++ [r]
       /\ correction_card r
          = [ (lit "WHEN: ", Some (VStr (lit "When asked about parking")));
              (lit "Do this: ", Some (VStr (lit "Say the venue decides."))) ].
Proof.
  split; [repeat constructor|].
  apply (new_correction_card Sample.noon AgentStudio.SEED.corrections
           Sample.correction_boxes).
  repeat constructor.
Defined.

Lemma lists_only_grow_without_remove_witness :
  Forall (fun e => is_remove (snd e) = false) Sample.session
  /\ list_of KRule AgentStudio.init
     `prefix_of` list_of KRule
                   (fst (AgentStudio.run Sample.session AgentStudio.init)).
Proof.
  split; [repeat constructor|].
  apply lists_only_grow_without_remove. repeat constructor.
Defined.
